(** * wave-backend: the task marketplace handlers of [app.py] over the tables of [models.py]

    The store is the five tables of [models.py]; every route of [app.py] that
    writes to it is a handler in a small session monad that separates the rows
    already committed from the unit of work of the running request.

    Conventions of the embedding.
    - A table is the list of its rows in rowid order.  A new row gets the id
      SQLite gives an INTEGER PRIMARY KEY: one more than the largest id in the
      table, 1 in an empty table.
    - [Float] columns hold rationals: the handlers store and copy these values
      and never compute with them.  [haversine_distance] and [get_map_tasks],
      which do compute with them, are not embedded.
    - The clock columns ([created_at], [updated_at]) and [password_hash] are
      left out: their values come from outside the handlers.
    - A JSON body is read at the types the routes expect (numbers, text); a key
      may be absent or null.
    - The storage may fail at a write: a bulk DELETE or a commit.  Reads do not
      fail. *)

From Stdlib Require Import ZArith QArith List Ascii String Bool Lia.
Import ListNotations.
Local Open Scope string_scope.
Local Open Scope list_scope.
Local Open Scope Z_scope.

(** ** Rows *)

Inductive TaskStatus := TOpen | TAccepted | TCompleted.
Inductive QuoteStatus := QPending | QAccepted | QDeclined.

Definition task_status_eqb (a b : TaskStatus) : bool :=
  match a, b with
  | TOpen, TOpen | TAccepted, TAccepted | TCompleted, TCompleted => true
  | _, _ => false
  end.

Definition quote_status_eqb (a b : QuoteStatus) : bool :=
  match a, b with
  | QPending, QPending | QAccepted, QAccepted | QDeclined, QDeclined => true
  | _, _ => false
  end.

Module User.
Record t := mk {
  id : Z;
  username : string;
  email : string;
  role : string;
  image_url : option string;
  latitude : option Q;
  longitude : option Q;
  work_platform : option string;
  is_admin : bool }.

Definition set_location (la lo : option Q) (u : t) : t :=
  mk (id u) (username u) (email u) (role u) (image_url u) la lo
     (work_platform u) (is_admin u).
Definition set_image_url (url : option string) (u : t) : t :=
  mk (id u) (username u) (email u) (role u) url (latitude u) (longitude u)
     (work_platform u) (is_admin u).
End User.

Module Task.
Record t := mk {
  id : Z;
  title : string;
  description : string;
  category : string;
  reward : option string;
  status : TaskStatus;
  latitude : Q;
  longitude : Q;
  poster_id : Z;
  helper_id : option Z;
  charges : option Q;
  hours : option Q;
  image_url : option string }.

Definition set_status (s : TaskStatus) (x : t) : t :=
  mk (id x) (title x) (description x) (category x) (reward x) s
     (latitude x) (longitude x) (poster_id x) (helper_id x) (charges x)
     (hours x) (image_url x).
Definition set_helper_id (h : option Z) (x : t) : t :=
  mk (id x) (title x) (description x) (category x) (reward x) (status x)
     (latitude x) (longitude x) (poster_id x) h (charges x) (hours x)
     (image_url x).
Definition set_charges (c : option Q) (x : t) : t :=
  mk (id x) (title x) (description x) (category x) (reward x) (status x)
     (latitude x) (longitude x) (poster_id x) (helper_id x) c (hours x)
     (image_url x).
Definition set_hours (h : option Q) (x : t) : t :=
  mk (id x) (title x) (description x) (category x) (reward x) (status x)
     (latitude x) (longitude x) (poster_id x) (helper_id x) (charges x) h
     (image_url x).
Definition set_image_url (u : option string) (x : t) : t :=
  mk (id x) (title x) (description x) (category x) (reward x) (status x)
     (latitude x) (longitude x) (poster_id x) (helper_id x) (charges x)
     (hours x) u.
End Task.

Module Quote.
Record t := mk {
  id : Z;
  task_id : Z;
  helper_id : Z;
  charges : Q;
  hours : Q;
  mobile : string;
  status : QuoteStatus }.

Definition set_status (s : QuoteStatus) (x : t) : t :=
  mk (id x) (task_id x) (helper_id x) (charges x) (hours x) (mobile x) s.
End Quote.

Module Rating.
Record t := mk {
  id : Z;
  task_id : Z;
  rater_id : Z;
  ratee_id : Z;
  score : Z;
  comment : option string }.
End Rating.

Module Notification.
Record t := mk {
  id : Z;
  user_id : Z;
  message : string;
  is_read : bool }.

Definition set_is_read (b : bool) (x : t) : t :=
  mk (id x) (user_id x) (message x) b.
End Notification.

(** ** The store *)

Record DB := mkDB {
  users : list User.t;
  tasks : list Task.t;
  quotes : list Quote.t;
  ratings : list Rating.t;
  notifications : list Notification.t }.

Definition with_users (f : list User.t -> list User.t) (d : DB) : DB :=
  mkDB (f (users d)) (tasks d) (quotes d) (ratings d) (notifications d).
Definition with_tasks (f : list Task.t -> list Task.t) (d : DB) : DB :=
  mkDB (users d) (f (tasks d)) (quotes d) (ratings d) (notifications d).
Definition with_quotes (f : list Quote.t -> list Quote.t) (d : DB) : DB :=
  mkDB (users d) (tasks d) (f (quotes d)) (ratings d) (notifications d).
Definition with_ratings (f : list Rating.t -> list Rating.t) (d : DB) : DB :=
  mkDB (users d) (tasks d) (quotes d) (f (ratings d)) (notifications d).
Definition with_notifications
    (f : list Notification.t -> list Notification.t) (d : DB) : DB :=
  mkDB (users d) (tasks d) (quotes d) (ratings d) (f (notifications d)).

Definition empty_db : DB := mkDB [] [] [] [] [].

(** The id of the next row of a table whose ids are [ids]. *)
Definition next_id (ids : list Z) : Z := 1 + fold_right Z.max 0 ids.

(** UPDATE ... WHERE id = [i]: the change an ORM object carries to its row. *)
Definition update_where {A} (key : A -> Z) (i : Z) (f : A -> A)
    (rows : list A) : list A :=
  map (fun r => if key r =? i then f r else r) rows.

(** DELETE ... WHERE [p]. *)
Definition delete_where {A} (p : A -> bool) (rows : list A) : list A :=
  filter (fun r => negb (p r)) rows.

(** ** Requests and responses *)

(** A key of a JSON body: absent, null, or a value. *)
Inductive field (A : Type) := Absent | Null | Val (a : A).
Arguments Absent {A}.
Arguments Null {A}.
Arguments Val {A} a.

(** [k in data] *)
Definition present {A} (f : field A) : bool :=
  match f with Absent => false | _ => true end.

(** [data.get(k)] and, once [k in data] holds, [data[k]] *)
Definition value {A} (f : field A) : option A :=
  match f with Val a => Some a | _ => None end.

(** [data.get(k, d)] *)
Definition value_or {A} (d : A) (f : field A) : option A :=
  match f with Absent => Some d | Null => None | Val a => Some a end.

Inductive Body :=
| Error (msg : string)
| Message (msg : string)
| Registered (u : User.t)
| Located (u : User.t)
| Image (url : option string)
| ATask (t : Task.t)
| AQuote (q : Quote.t)
| ARating (r : Rating.t)
| QuoteAccepted (t : Task.t) (q : Quote.t)
| Unhandled.

Record Response := resp { body : Body; code : Z }.

(** ** The session *)

Inductive exn := StorageError | AttributeError | IntegrityError.

Inductive result (A : Type) := Ok (a : A) | Raise (e : exn).
Arguments Ok {A} a.
Arguments Raise {A} e.

(** A row marked by [db.session.delete]. *)
Inductive mark := TaskRow (i : Z) | QuoteRow (i : Z).

(** [stored] is what has been committed, [work] the rows as the running
    request sees them, [doomed] the rows marked for deletion and not yet
    flushed, [fault] the number of writes that succeed before the storage
    fails ([None]: it does not fail). *)
Record Session := mkSession {
  stored : DB;
  work : DB;
  doomed : list mark;
  fault : option nat }.

Definition M (A : Type) : Type := Session -> result A * Session.

Definition ret {A} (a : A) : M A := fun s => (Ok a, s).

Definition bind {A B} (m : M A) (k : A -> M B) : M B :=
  fun s => match m s with
           | (Ok a, s') => k a s'
           | (Raise e, s') => (Raise e, s')
           end.

Definition raise {A} (e : exn) : M A := fun s => (Raise e, s).

(** [try: m except Exception: h] *)
Definition try_except {A} (m : M A) (h : M A) : M A :=
  fun s => match m s with
           | (Ok a, s') => (Ok a, s')
           | (Raise _, s') => h s'
           end.

Declare Scope session_scope.
Delimit Scope session_scope with session.
Notation "x <- m ;; k" := (bind m (fun x => k))
  (at level 100, m at next level, right associativity) : session_scope.
Notation "m ;; k" := (bind m (fun _ => k))
  (at level 100, right associativity) : session_scope.
Local Open Scope session_scope.

Definition unmark (m : mark) (d : DB) : DB :=
  match m with
  | TaskRow i => with_tasks (delete_where (fun t => Task.id t =? i)) d
  | QuoteRow i => with_quotes (delete_where (fun q => Quote.id q =? i)) d
  end.

(** The flush of the unit of work.  New rows and changed attributes are in
    [work] already; the flush emits the DELETEs of the marked rows, which the
    unit of work orders after its INSERTs and UPDATEs. *)
Definition flushed (s : Session) : DB :=
  fold_left (fun d m => unmark m d) (doomed s) (work s).

Definition flush : M unit :=
  fun s => (Ok tt, mkSession (stored s) (flushed s) [] (fault s)).

(** One write reaches the storage. *)
Definition write : M unit :=
  fun s => match fault s with
           | Some O => (Raise StorageError,
                        mkSession (stored s) (work s) (doomed s) None)
           | Some (S n) =>
               (Ok tt, mkSession (stored s) (work s) (doomed s) (Some n))
           | None => (Ok tt, s)
           end.

(** A query: autoflush, then read. *)
Definition query {A} (q : DB -> A) : M A :=
  flush ;; fun s => (Ok (q (work s)), s).

(** A change held by the unit of work: an attribute set or [session.add]. *)
Definition change (f : DB -> DB) : M unit :=
  fun s => (Ok tt, mkSession (stored s) (f (work s)) (doomed s) (fault s)).

(** [db.session.delete(obj)] *)
Definition session_delete (m : mark) : M unit :=
  fun s => (Ok tt, mkSession (stored s) (work s) (doomed s ++ [m]) (fault s)).

(** [Query.delete()]: autoflush, then one DELETE statement. *)
Definition bulk_delete (f : DB -> DB) : M unit :=
  flush ;; write ;; change f.

(** [db.session.commit()] *)
Definition commit : M unit :=
  flush ;; write ;;
  fun s => (Ok tt, mkSession (work s) (work s) (doomed s) (fault s)).

(** [db.session.rollback()] *)
Definition rollback : M unit :=
  fun s => (Ok tt, mkSession (stored s) (stored s) [] (fault s)).

(** [for x in xs: body] *)
Fixpoint for_each {A} (xs : list A) (body : A -> M unit) : M unit :=
  match xs with
  | [] => ret tt
  | x :: xs' => body x ;; for_each xs' body
  end.

(** A request: the handler runs in a fresh session on the committed rows; an
    exception that leaves the handler is answered with a 500, and the session
    is discarded with whatever it had not committed. *)
Definition serve (h : M Response) (f : option nat) (db : DB) : Response * DB :=
  match h (mkSession db db [] f) with
  | (Ok r, s) => (r, stored s)
  | (Raise _, s) => (resp Unhandled 500, stored s)
  end.

(** ** Queries *)

(** [User.query.get(i)] *)
Definition User_get (i : Z) (d : DB) : option User.t :=
  find (fun u => User.id u =? i) (users d).

(** [Task.query.get(i)]; also the [task] relationship of a quote or rating *)
Definition Task_get (i : Z) (d : DB) : option Task.t :=
  find (fun t => Task.id t =? i) (tasks d).

(** [Quote.query.get(i)] *)
Definition Quote_get (i : Z) (d : DB) : option Quote.t :=
  find (fun q => Quote.id q =? i) (quotes d).

(** [Quote.query.filter_by(task_id=t)], the rows of the query in table order *)
Definition quotes_of (t : Z) (d : DB) : list Quote.t :=
  filter (fun q => Quote.task_id q =? t) (quotes d).

(** [Rating.query.filter_by(task_id=t)] *)
Definition ratings_of (t : Z) (d : DB) : list Rating.t :=
  filter (fun r => Rating.task_id r =? t) (ratings d).

(** [Task.query.filter_by(id=t, status='open').first()] *)
Definition open_task (t : Z) (d : DB) : option Task.t :=
  find (fun x => (Task.id x =? t) && task_status_eqb (Task.status x) TOpen)
       (tasks d).

(** [Task.query.filter_by(id=t, poster_id=u).first()] *)
Definition owned_task (u t : Z) (d : DB) : option Task.t :=
  find (fun x => (Task.id x =? t) && (Task.poster_id x =? u)) (tasks d).

(** [Quote.query.filter_by(task_id=t, helper_id=u).first()] *)
Definition existing_quote (u t : Z) (d : DB) : option Quote.t :=
  find (fun q => (Quote.task_id q =? t) && (Quote.helper_id q =? u))
       (quotes d).

(** [Rating.query.filter_by(task_id=t, rater_id=u, ratee_id=v).first()] *)
Definition existing_rating (t u v : Z) (d : DB) : option Rating.t :=
  find (fun r => (Rating.task_id r =? t) && (Rating.rater_id r =? u)
                 && (Rating.ratee_id r =? v)) (ratings d).

(** [Notification.query.filter_by(id=n, user_id=u).first()] *)
Definition own_notification (n u : Z) (d : DB) : option Notification.t :=
  find (fun x => (Notification.id x =? n) && (Notification.user_id x =? u))
       (notifications d).

(** [User.query.filter_by(email=e).first()]; a null [e] matches no row *)
Definition user_by_email (e : option string) (d : DB) : option User.t :=
  match e with
  | Some e => find (fun u => String.eqb (User.email u) e) (users d)
  | None => None
  end.

(** [User.query.filter_by(username=n).first()] *)
Definition user_by_username (n : option string) (d : DB) : option User.t :=
  match n with
  | Some n => find (fun u => String.eqb (User.username u) n) (users d)
  | None => None
  end.

(** A Python value used as a condition: [None] and [0] are false. *)
Definition truthy (x : option Z) : bool :=
  match x with Some z => negb (z =? 0) | None => false end.

(** [x in [a, b]] where [b] may be [None] *)
Definition among (x a : Z) (b : option Z) : bool :=
  (x =? a) || match b with Some h => x =? h | None => false end.

(** ** [db.session.add]

    The new row is given here the id its INSERT will give it: the unit of work
    inserts in the order of the [add]s, before it deletes any marked row. *)

Definition add_user (row : Z -> User.t) : M User.t :=
  fun s => let r := row (next_id (map User.id (users (work s)))) in
    (Ok r, mkSession (stored s) (with_users (fun rs => rs ++ [r]) (work s))
                     (doomed s) (fault s)).

Definition add_task (row : Z -> Task.t) : M Task.t :=
  fun s => let r := row (next_id (map Task.id (tasks (work s)))) in
    (Ok r, mkSession (stored s) (with_tasks (fun rs => rs ++ [r]) (work s))
                     (doomed s) (fault s)).

Definition add_quote (row : Z -> Quote.t) : M Quote.t :=
  fun s => let r := row (next_id (map Quote.id (quotes (work s)))) in
    (Ok r, mkSession (stored s) (with_quotes (fun rs => rs ++ [r]) (work s))
                     (doomed s) (fault s)).

Definition add_rating (row : Z -> Rating.t) : M Rating.t :=
  fun s => let r := row (next_id (map Rating.id (ratings (work s)))) in
    (Ok r, mkSession (stored s) (with_ratings (fun rs => rs ++ [r]) (work s))
                     (doomed s) (fault s)).

Definition add_notification (row : Z -> Notification.t) : M Notification.t :=
  fun s =>
    let r := row (next_id (map Notification.id (notifications (work s)))) in
    (Ok r, mkSession (stored s)
                     (with_notifications (fun rs => rs ++ [r]) (work s))
                     (doomed s) (fault s)).

(** ** Handlers *)

(** [create_notification] *)
Definition create_notification (user_id : Z) (message : string) : M unit :=
  add_notification (fun i => Notification.mk i user_id message false) ;;
  ret tt.

Record RegisterData := {
  reg_username : field string;
  reg_email : field string;
  reg_password : field string;
  reg_role : field string;
  reg_work_platform : field string }.

Definition admin_email : string := "wavecommunnity@gmail.com".

Definition role_allowed (r : option string) : bool :=
  match r with
  | Some r => String.eqb r "user" || String.eqb r "seeker"
  | None => false
  end.

(** [register] *)
Definition register (data : RegisterData) : M Response :=
  if negb (present (reg_username data) && present (reg_email data)
           && present (reg_password data) && present (reg_role data))
  then ret (resp (Error "Username, email, password, and role are required") 400)
  else if negb (role_allowed (value (reg_role data)))
  then ret (resp (Error "Role must be 'user' or 'seeker'") 400)
  else
    by_email <- query (user_by_email (value (reg_email data))) ;;
    match by_email with
    | Some _ => ret (resp (Error "Email already registered") 400)
    | None =>
      by_name <- query (user_by_username (value (reg_username data))) ;;
      match by_name with
      | Some _ => ret (resp (Error "Username already taken") 400)
      | None =>
        match value (reg_password data) with
        | None => raise AttributeError
        | Some _ =>
          match value (reg_username data), value (reg_email data),
                value (reg_role data) with
          | Some n, Some e, Some r =>
            new_user <- add_user (fun i =>
              User.mk i n e r None None None (value (reg_work_platform data))
                      (String.eqb e admin_email)) ;;
            commit ;;
            ret (resp (Registered new_user) 201)
          | _, _, _ => flush ;; raise IntegrityError
          end
        end
      end
    end.

Record TaskData := {
  td_title : field string;
  td_description : field string;
  td_category : field string;
  td_latitude : field Q;
  td_longitude : field Q;
  td_reward : field string }.

(** [create_task] *)
Definition create_task (current_user_id : Z) (data : TaskData) : M Response :=
  if negb (present (td_title data) && present (td_description data)
           && present (td_category data) && present (td_latitude data)
           && present (td_longitude data))
  then ret (resp (Error
    "title, description, category, latitude, and longitude are required") 400)
  else
    match value (td_title data), value (td_description data),
          value (td_category data), value (td_latitude data),
          value (td_longitude data) with
    | Some ti, Some de, Some ca, Some la, Some lo =>
      new_task <- add_task (fun i =>
        Task.mk i ti de ca (value_or "" (td_reward data)) TOpen la lo
                current_user_id None None None None) ;;
      commit ;;
      ret (resp (ATask new_task) 201)
    | _, _, _, _, _ => flush ;; raise IntegrityError
    end.

(** [update_location] *)
Definition update_location (current_user_id : Z)
    (latitude longitude : field Q) : M Response :=
  if negb (present latitude) || negb (present longitude)
  then ret (resp (Error "latitude and longitude are required") 400)
  else
    user <- query (User_get current_user_id) ;;
    match user with
    | None => ret (resp (Error "User not found") 404)
    | Some user =>
      change (with_users (update_where User.id (User.id user)
        (fun u => User.set_location (value latitude) (User.longitude u) u))) ;;
      change (with_users (update_where User.id (User.id user)
        (fun u => User.set_location (User.latitude u) (value longitude) u))) ;;
      commit ;;
      ret (resp (Located (User.set_location (value latitude) (value longitude)
                                            user)) 200)
    end.

(** [not mobile] *)
Definition no_text (m : option string) : bool :=
  match m with Some s => String.eqb s "" | None => true end.

(** [submit_quote]; [charges], [hours] and [mobile] are [data.get] of the
    body, so [None] is an absent or null key; [float] of a number is the
    number. *)
Definition submit_quote (current_user_id task_id : Z)
    (charges hours : option Q) (mobile : option string) : M Response :=
  match charges, hours, mobile with
  | Some c, Some h, Some m =>
    if no_text mobile
    then ret (resp (Error "Charges, hours, and mobile are required") 400)
    else
      task <- query (open_task task_id) ;;
      match task with
      | None => ret (resp (Error "Task not found or no longer open") 404)
      | Some _ =>
        existing <- query (existing_quote current_user_id task_id) ;;
        match existing with
        | Some e => session_delete (QuoteRow (Quote.id e))
        | None => ret tt
        end ;;
        quote <- add_quote (fun i =>
          Quote.mk i task_id current_user_id c h m QPending) ;;
        commit ;;
        ret (resp (AQuote quote) 201)
      end
  | _, _, _ => ret (resp (Error "Charges, hours, and mobile are required") 400)
  end.

(** What the checks on an uploaded file come to: no [image] part, an empty
    file name, a name [allowed_file] refuses, or a file saved under [url]. *)
Inductive upload := NoImage | NoName | BadType | Saved (url : string).

(** [upload_profile_image] *)
Definition upload_profile_image (current_user_id : Z) (file : upload)
    : M Response :=
  match file with
  | NoImage => ret (resp (Error "No image provided") 400)
  | NoName => ret (resp (Error "No image selected") 400)
  | BadType =>
      ret (resp (Error "Invalid file type. Use PNG, JPG, JPEG, or GIF") 400)
  | Saved url =>
    user <- query (User_get current_user_id) ;;
    match user with
    | None => raise AttributeError
    | Some user =>
      change (with_users (update_where User.id (User.id user)
                                       (User.set_image_url (Some url)))) ;;
      commit ;;
      ret (resp (Image (Some url)) 200)
    end
  end.

Definition declined_message (title : string) : string :=
  String.append "Your quotation for '"
    (String.append title "' was declined.").

Definition assigned_message (title : string) : string :=
  String.append "Your work for '" (String.append title "' was assigned!").

(** [accept_quote] *)
Definition accept_quote (current_user_id quote_id : Z) : M Response :=
  quote <- query (Quote_get quote_id) ;;
  match quote with
  | None => ret (resp (Error "Quote not found") 404)
  | Some quote =>
    task <- query (Task_get (Quote.task_id quote)) ;;
    match task with
    | None => raise AttributeError
    | Some task =>
      if negb (Task.poster_id task =? current_user_id)
      then ret (resp (Error "Only the task poster can accept quotes") 403)
      else
        other_quotes <- query (fun d =>
          filter (fun q => negb (Quote.id q =? quote_id))
                 (quotes_of (Task.id task) d)) ;;
        for_each other_quotes (fun q =>
          change (with_quotes (update_where Quote.id (Quote.id q)
                                            (Quote.set_status QDeclined))) ;;
          create_notification (Quote.helper_id q)
                              (declined_message (Task.title task))) ;;
        change (with_quotes (update_where Quote.id (Quote.id quote)
                                          (Quote.set_status QAccepted))) ;;
        change (with_tasks (update_where Task.id (Task.id task)
          (Task.set_helper_id (Some (Quote.helper_id quote))))) ;;
        change (with_tasks (update_where Task.id (Task.id task)
          (Task.set_charges (Some (Quote.charges quote))))) ;;
        change (with_tasks (update_where Task.id (Task.id task)
          (Task.set_hours (Some (Quote.hours quote))))) ;;
        change (with_tasks (update_where Task.id (Task.id task)
          (Task.set_status TAccepted))) ;;
        commit ;;
        create_notification (Quote.helper_id quote)
                            (assigned_message (Task.title task)) ;;
        commit ;;
        ret (resp (QuoteAccepted
          (Task.set_status TAccepted
            (Task.set_hours (Some (Quote.hours quote))
              (Task.set_charges (Some (Quote.charges quote))
                (Task.set_helper_id (Some (Quote.helper_id quote)) task))))
          (Quote.set_status QAccepted quote)) 200)
    end
  end.

(** [mark_notification_read] *)
Definition mark_notification_read (current_user_id notification_id : Z)
    : M Response :=
  notif <- query (own_notification notification_id current_user_id) ;;
  match notif with
  | None => ret (resp (Error "Notification not found") 404)
  | Some notif =>
    change (with_notifications (update_where Notification.id
      (Notification.id notif) (Notification.set_is_read true))) ;;
    commit ;;
    ret (resp (Message "Notification marked as read") 200)
  end.

(** [complete_task] *)
Definition complete_task (current_user_id task_id : Z) : M Response :=
  task <- query (Task_get task_id) ;;
  match task with
  | None => ret (resp (Error "Task not found") 404)
  | Some task =>
    if negb (among current_user_id (Task.poster_id task) (Task.helper_id task))
    then ret (resp (Error "You're not authorized to complete this task") 403)
    else
      change (with_tasks (update_where Task.id (Task.id task)
                                       (Task.set_status TCompleted))) ;;
      commit ;;
      ret (resp (ATask (Task.set_status TCompleted task)) 200)
  end.

(** [create_rating]; [task_id], [ratee_id] and [score] are [data.get] of the
    body, [comment] is its key. *)
Definition create_rating (current_user_id : Z)
    (task_id ratee_id score : option Z) (comment : field string)
    : M Response :=
  match task_id, ratee_id, score with
  | Some tid, Some ratee, Some sc =>
    if negb (truthy task_id && truthy ratee_id && truthy score)
    then ret (resp (Error "task_id, ratee_id, and score are required") 400)
    else if negb ((1 <=? sc) && (sc <=? 5))
    then ret (resp (Error "Score must be between 1 and 5") 400)
    else
      task <- query (Task_get tid) ;;
      match task with
      | None => ret (resp (Error "Task not found or not completed") 400)
      | Some task =>
        if negb (task_status_eqb (Task.status task) TCompleted)
        then ret (resp (Error "Task not found or not completed") 400)
        else if negb (among current_user_id (Task.poster_id task)
                            (Task.helper_id task))
        then ret (resp (Error "You were not part of this task") 403)
        else if negb (among ratee (Task.poster_id task) (Task.helper_id task))
                || (ratee =? current_user_id)
        then ret (resp (Error "You can only rate the other participant") 400)
        else
          existing <- query (existing_rating tid current_user_id ratee) ;;
          match existing with
          | Some _ =>
            ret (resp (Error "You already rated this user for this task") 400)
          | None =>
            rating <- add_rating (fun i =>
              Rating.mk i tid current_user_id ratee sc
                        (value_or "" comment)) ;;
            commit ;;
            ret (resp (ARating rating) 201)
          end
      end
  | _, _, _ =>
    ret (resp (Error "task_id, ratee_id, and score are required") 400)
  end.

(** [delete_task] *)
Definition delete_task (current_user_id task_id : Z) : M Response :=
  try_except
    (task <- query (owned_task current_user_id task_id) ;;
     match task with
     | None => ret (resp (Error "Task not found or you don't own it") 404)
     | Some task =>
       if negb (task_status_eqb (Task.status task) TOpen)
       then ret (resp (Error "Only open tasks can be deleted") 400)
       else
         bulk_delete (with_quotes
           (delete_where (fun q => Quote.task_id q =? task_id))) ;;
         bulk_delete (with_ratings
           (delete_where (fun r => Rating.task_id r =? task_id))) ;;
         session_delete (TaskRow (Task.id task)) ;;
         commit ;;
         ret (resp (Message "Task deleted successfully") 200)
     end)
    (rollback ;;
     ret (resp (Error "Failed to delete task") 500)).

(** [upload_task_image] *)
Definition upload_task_image (current_user_id task_id : Z) (file : upload)
    : M Response :=
  task <- query (owned_task current_user_id task_id) ;;
  match task with
  | None => ret (resp (Error "Task not found or you don't own it") 404)
  | Some task =>
    match file with
    | NoImage => ret (resp (Error "No image provided") 400)
    | NoName => ret (resp (Error "No image selected") 400)
    | BadType =>
        ret (resp (Error "Invalid file type. Use PNG, JPG, JPEG, or GIF") 400)
    | Saved url =>
      change (with_tasks (update_where Task.id (Task.id task)
                                       (Task.set_image_url (Some url)))) ;;
      commit ;;
      ret (resp (Image (Some url)) 200)
    end
  end.

(** ** The routes that write

    The other routes of [app.py] only read the store. *)

Inductive request :=
| Register (data : RegisterData)
| CreateTask (current_user_id : Z) (data : TaskData)
| UpdateLocation (current_user_id : Z) (latitude longitude : field Q)
| SubmitQuote (current_user_id task_id : Z) (charges hours : option Q)
              (mobile : option string)
| UploadProfileImage (current_user_id : Z) (file : upload)
| AcceptQuote (current_user_id quote_id : Z)
| MarkNotificationRead (current_user_id notification_id : Z)
| CompleteTask (current_user_id task_id : Z)
| CreateRating (current_user_id : Z) (task_id ratee_id score : option Z)
               (comment : field string)
| DeleteTask (current_user_id task_id : Z)
| UploadTaskImage (current_user_id task_id : Z) (file : upload).

Definition handler (r : request) : M Response :=
  match r with
  | Register data => register data
  | CreateTask u data => create_task u data
  | UpdateLocation u la lo => update_location u la lo
  | SubmitQuote u t c h m => submit_quote u t c h m
  | UploadProfileImage u f => upload_profile_image u f
  | AcceptQuote u q => accept_quote u q
  | MarkNotificationRead u n => mark_notification_read u n
  | CompleteTask u t => complete_task u t
  | CreateRating u t r s c => create_rating u t r s c
  | DeleteTask u t => delete_task u t
  | UploadTaskImage u t f => upload_task_image u t f
  end.

(** The store after request [r], when the storage fails as [f] says. *)
Definition step (r : request) (f : option nat) (db : DB) : DB :=
  snd (serve (handler r) f db).

(** The store after a sequence of requests. *)
Fixpoint run (rs : list (request * option nat)) (db : DB) : DB :=
  match rs with
  | [] => db
  | (r, f) :: rs' => run rs' (step r f db)
  end.

(** ** What the requests commit, as functions on the store *)

(** One turn of the loop of [accept_quote] over the other quotes. *)
Definition decline (task : Task.t) (d : DB) (q : Quote.t) : DB :=
  with_notifications (fun ns =>
    ns ++ [Notification.mk (next_id (map Notification.id ns))
                           (Quote.helper_id q)
                           (declined_message (Task.title task)) false])
    (with_quotes (update_where Quote.id (Quote.id q)
                               (Quote.set_status QDeclined)) d).

(** The other quotes of the task of [accept_quote]. *)
Definition other_quotes (task : Task.t) (quote_id : Z) (d : DB)
    : list Quote.t :=
  filter (fun q => negb (Quote.id q =? quote_id)) (quotes_of (Task.id task) d).

(** The task row after [accept_quote]. *)
Definition assigned (quote : Quote.t) (t : Task.t) : Task.t :=
  Task.set_status TAccepted
    (Task.set_hours (Some (Quote.hours quote))
      (Task.set_charges (Some (Quote.charges quote))
        (Task.set_helper_id (Some (Quote.helper_id quote)) t))).

(** What the first commit of [accept_quote] holds. *)
Definition accept_first (quote : Quote.t) (task : Task.t) (d : DB) : DB :=
  with_tasks (update_where Task.id (Task.id task) (assigned quote))
    (with_quotes (update_where Quote.id (Quote.id quote)
                               (Quote.set_status QAccepted))
      (fold_left (decline task) (other_quotes task (Quote.id quote) d) d)).

(** What its second commit adds. *)
Definition accept_second (quote : Quote.t) (task : Task.t) (d : DB) : DB :=
  with_notifications (fun ns =>
    ns ++ [Notification.mk (next_id (map Notification.id ns))
                           (Quote.helper_id quote)
                           (assigned_message (Task.title task)) false]) d.

(** What [delete_task] commits. *)
Definition task_deleted (task_id : Z) (d : DB) : DB :=
  with_tasks (delete_where (fun t => Task.id t =? task_id))
    (with_ratings (delete_where (fun r => Rating.task_id r =? task_id))
      (with_quotes (delete_where (fun q => Quote.task_id q =? task_id)) d)).

(** The quote [submit_quote] inserts. *)
Definition new_quote (current_user_id task_id : Z) (c h : Q) (m : string)
    (d : DB) : Quote.t :=
  Quote.mk (next_id (map Quote.id (quotes d))) task_id current_user_id c h m
           QPending.

(** What [submit_quote] commits. *)
Definition quote_submitted (current_user_id task_id : Z) (c h : Q)
    (m : string) (d : DB) : DB :=
  let added := with_quotes
    (fun qs => qs ++ [new_quote current_user_id task_id c h m d]) d in
  match existing_quote current_user_id task_id d with
  | Some e => with_quotes (delete_where (fun q => Quote.id q =? Quote.id e))
                          added
  | None => added
  end.

(** The quotes once quote [quote_id] of task [task_id] is accepted. *)
Definition settled (quote_id task_id : Z) (qs : list Quote.t) : list Quote.t :=
  map (fun r =>
         if Quote.id r =? quote_id then Quote.set_status QAccepted r
         else if Quote.task_id r =? task_id then Quote.set_status QDeclined r
         else r) qs.

(** The notifications of the declined helpers. *)
Definition decline_notes (title : string) (others : list Quote.t)
    (ns : list Notification.t) : list Notification.t :=
  fold_left (fun ns o =>
    ns ++ [Notification.mk (next_id (map Notification.id ns))
                           (Quote.helper_id o) (declined_message title) false])
    others ns.

(** ** Invariants of the store *)

(** The primary key of [Quote]. *)
Definition quote_ids_unique (d : DB) : Prop :=
  NoDup (map Quote.id (quotes d)).



(** The accepted quotes of task [t]. *)
Definition accepted_of (t : Z) (d : DB) : list Quote.t :=
  filter (fun q => quote_status_eqb (Quote.status q) QAccepted)
         (quotes_of t d).


(** ** A small store

    Task 1 of user 1 is open and has two pending quotes: quote 1 of helper 2
    and quote 2 of helper 3. *)

Definition tap : Task.t :=
  Task.mk 1 "Fix tap" "The kitchen tap leaks" "plumbing" (Some "") TOpen
          0%Q 0%Q 1 None None None None.

Definition market : DB :=
  mkDB [] [tap]
       [Quote.mk 1 1 2 50%Q 2%Q "555" QPending;
        Quote.mk 2 1 3 40%Q 3%Q "556" QPending]
       [] [].


(** The task once quote 1 is accepted. *)
Definition tap_assigned : Task.t :=
  Task.mk 1 "Fix tap" "The kitchen tap leaks" "plumbing" (Some "") TAccepted
          0%Q 0%Q 1 (Some 2) (Some 50%Q) (Some 2%Q) None.

(** The small store with the first commit of that acceptance and not the
    second. *)
Definition market_half : DB :=
  mkDB [] [tap_assigned]
       [Quote.mk 1 1 2 50%Q 2%Q "555" QAccepted;
        Quote.mk 2 1 3 40%Q 3%Q "556" QDeclined]
       []
       [Notification.mk 1 3 "Your quotation for 'Fix tap' was declined."
                        false].

(** The small store after the poster accepted quote 1. *)
Definition market_settled : DB :=
  mkDB [] [tap_assigned]
       [Quote.mk 1 1 2 50%Q 2%Q "555" QAccepted;
        Quote.mk 2 1 3 40%Q 3%Q "556" QDeclined]
       []
       [Notification.mk 1 3 "Your quotation for 'Fix tap' was declined."
                        false;
        Notification.mk 2 2 "Your work for 'Fix tap' was assigned!" false].

(** A store whose task was done by helper 2 and is completed. *)
Definition finished : DB :=
  mkDB []
       [Task.mk 1 "Fix tap" "The kitchen tap leaks" "plumbing" (Some "")
                TCompleted 0%Q 0%Q 1 (Some 2) (Some 50%Q) (Some 2%Q) None]
       [Quote.mk 1 1 2 50%Q 2%Q "555" QAccepted] [] [].

(** ** The checks of SubmitRating, in the words of the specification *)

Inductive check :=
| FieldsPresent | ScoreInRange | TaskCompleted | ActorParticipant
| RateeOther | NotRatedYet.

(** The order in which the specification lists them. *)
Definition checks : list check :=
  [FieldsPresent; ScoreInRange; TaskCompleted; ActorParticipant; RateeOther;
   NotRatedYet].

(** The task a rating names, if there is one. *)
Definition rated_task (task_id : option Z) (d : DB) : option Task.t :=
  match task_id with Some tid => Task_get tid d | None => None end.

(** Each check on its own, whatever the others say.  A field is present
    when Python takes it for true: it is neither missing, null nor 0. *)
Definition holds (c : check) (actor : Z) (task_id ratee_id score : option Z)
    (d : DB) : bool :=
  match c with
  | FieldsPresent => truthy task_id && truthy ratee_id && truthy score
  | ScoreInRange =>
      match score with Some sc => (1 <=? sc) && (sc <=? 5) | None => false end
  | TaskCompleted =>
      match rated_task task_id d with
      | Some t => task_status_eqb (Task.status t) TCompleted
      | None => false
      end
  | ActorParticipant =>
      match rated_task task_id d with
      | Some t => among actor (Task.poster_id t) (Task.helper_id t)
      | None => false
      end
  | RateeOther =>
      match rated_task task_id d, ratee_id with
      | Some t, Some ratee =>
          among ratee (Task.poster_id t) (Task.helper_id t)
          && negb (ratee =? actor)
      | _, _ => false
      end
  | NotRatedYet =>
      match task_id, ratee_id with
      | Some tid, Some ratee =>
          negb (existsb (fun r => (Rating.task_id r =? tid)
                                  && (Rating.rater_id r =? actor)
                                  && (Rating.ratee_id r =? ratee))
                        (ratings d))
      | _, _ => false
      end
  end.

(** The first check of the list that fails. *)
Definition first_violated (actor : Z) (task_id ratee_id score : option Z)
    (d : DB) : option check :=
  find (fun c => negb (holds c actor task_id ratee_id score d)) checks.

(** The answer of [create_rating] to a failed check. *)
Definition refusal (c : check) : Response :=
  match c with
  | FieldsPresent =>
      resp (Error "task_id, ratee_id, and score are required") 400
  | ScoreInRange => resp (Error "Score must be between 1 and 5") 400
  | TaskCompleted => resp (Error "Task not found or not completed") 400
  | ActorParticipant => resp (Error "You were not part of this task") 403
  | RateeOther => resp (Error "You can only rate the other participant") 400
  | NotRatedYet =>
      resp (Error "You already rated this user for this task") 400
  end.

(** The rating [create_rating] inserts. *)
Definition new_rating (actor tid ratee sc : Z) (comment : field string)
    (d : DB) : Rating.t :=
  Rating.mk (next_id (map Rating.id (ratings d))) tid actor ratee sc
            (value_or "" comment).

(** ** What a request can commit *)

(** The user [register] inserts. *)
Definition new_user (n e r : string) (wp : option string) (d : DB) : User.t :=
  User.mk (next_id (map User.id (users d))) n e r None None None wp
          (String.eqb e admin_email).

(** The task [create_task] inserts. *)
Definition new_task (current_user_id : Z) (ti de ca : string)
    (rw : option string) (la lo : Q) (d : DB) : Task.t :=
  Task.mk (next_id (map Task.id (tasks d))) ti de ca rw TOpen la lo
          current_user_id None None None None.

(** The user a request acts for; [register] has none. *)
Definition caller (r : request) : option Z :=
  match r with
  | Register _ => None
  | CreateTask u _ | UpdateLocation u _ _ | SubmitQuote u _ _ _ _
  | UploadProfileImage u _ | AcceptQuote u _ | MarkNotificationRead u _
  | CompleteTask u _ | CreateRating u _ _ _ _ | DeleteTask u _
  | UploadTaskImage u _ _ => Some u
  end.

(** [committed d u d']: some request of caller [u] takes the store from [d]
    to [d'] and changes it.  One constructor per commit of a handler, with
    what the handler has checked before it commits. *)
Inductive committed (d : DB) : option Z -> DB -> Prop :=
| registered n e r wp :
    user_by_email (Some e) d = None ->
    user_by_username (Some n) d = None ->
    role_allowed (Some r) = true ->
    committed d None (with_users (fun us => us ++ [new_user n e r wp d]) d)
| task_created uid ti de ca rw la lo :
    committed d (Some uid)
      (with_tasks (fun ts => ts ++ [new_task uid ti de ca rw la lo d]) d)
| location_updated user la lo :
    User_get (User.id user) d = Some user ->
    committed d (Some (User.id user))
      (with_users (update_where User.id (User.id user)
                                (User.set_location la lo)) d)
| quote_stored uid tid c h m task :
    open_task tid d = Some task ->
    m <> "" ->
    committed d (Some uid) (quote_submitted uid tid c h m d)
| profile_image_set user url :
    User_get (User.id user) d = Some user ->
    committed d (Some (User.id user))
      (with_users (update_where User.id (User.id user)
                                (User.set_image_url (Some url))) d)
| quote_accepted_first quote task :
    Quote_get (Quote.id quote) d = Some quote ->
    Task_get (Quote.task_id quote) d = Some task ->
    committed d (Some (Task.poster_id task)) (accept_first quote task d)
| quote_accepted quote task :
    Quote_get (Quote.id quote) d = Some quote ->
    Task_get (Quote.task_id quote) d = Some task ->
    committed d (Some (Task.poster_id task))
      (accept_second quote task (accept_first quote task d))
| notification_read notif uid :
    own_notification (Notification.id notif) uid d = Some notif ->
    committed d (Some uid)
      (with_notifications (update_where Notification.id (Notification.id notif)
                                        (Notification.set_is_read true)) d)
| task_completed task uid :
    Task_get (Task.id task) d = Some task ->
    among uid (Task.poster_id task) (Task.helper_id task) = true ->
    committed d (Some uid)
      (with_tasks (update_where Task.id (Task.id task)
                                (Task.set_status TCompleted)) d)
| rating_stored actor tid ratee sc comment :
    first_violated actor (Some tid) (Some ratee) (Some sc) d = None ->
    committed d (Some actor)
      (with_ratings
         (fun rs => rs ++ [new_rating actor tid ratee sc comment d]) d)
| task_removed uid tid task :
    owned_task uid tid d = Some task ->
    Task.status task = TOpen ->
    committed d (Some uid) (task_deleted tid d)
| task_image_set uid task url :
    owned_task uid (Task.id task) d = Some task ->
    committed d (Some uid)
      (with_tasks (update_where Task.id (Task.id task)
                                (Task.set_image_url (Some url))) d).

(** ** Invariants of the users *)

(** [email] and [username] are unique, every role is one [register] admits,
    and the admin flag is the comparison of [register]. *)
Definition users_ok (d : DB) : Prop :=
  NoDup (map User.email (users d))
  /\ NoDup (map User.username (users d))
  /\ Forall (fun u => role_allowed (Some (User.role u)) = true
                      /\ User.is_admin u
                         = String.eqb (User.email u) admin_email)
            (users d).

(** [admin_required], around a route that reads the store *)
Definition admin_required {A} (f : Z -> DB -> A) (current_user_id : Z)
    (d : DB) : Response + A :=
  match User_get current_user_id d with
  | Some user =>
      if User.is_admin user then inr (f current_user_id d)
      else inl (resp (Error "Admin only") 403)
  | None => inl (resp (Error "Admin only") 403)
  end.

(** [admin_users], a row standing for its [to_dict] *)
Definition admin_users (current_user_id : Z) (d : DB) : list User.t :=
  users d.

(** ** Invariants of the tasks *)

(** The primary key of [Task]. *)
Definition task_ids_unique (d : DB) : Prop :=
  NoDup (map Task.id (tasks d)).

(** An open task has no helper, charges or hours; an accepted task has all
    three. *)
Definition assignment_ok (t : Task.t) : Prop :=
  match Task.status t with
  | TOpen => Task.helper_id t = None /\ Task.charges t = None
             /\ Task.hours t = None
  | TAccepted => Task.helper_id t <> None /\ Task.charges t <> None
                 /\ Task.hours t <> None
  | TCompleted => True
  end.

(** The columns of a task that no handler writes after [create_task]. *)
Definition posting (t : Task.t)
    : Z * Z * string * string * string * option string * Q * Q :=
  (Task.id t, Task.poster_id t, Task.title t, Task.description t,
   Task.category t, Task.reward t, Task.latitude t, Task.longitude t).

(** ** Invariants across the tables *)


(** The ratings a rater gave a ratee on a task. *)
Definition ratings_by (t u v : Z) (d : DB) : list Rating.t :=
  filter (fun r => (Rating.task_id r =? t) && (Rating.rater_id r =? u)
                   && (Rating.ratee_id r =? v)) (ratings d).

(** Scores are in [1,5], nobody rates themselves, and a rater rates a ratee
    on a task at most once. *)
Definition ratings_ok (d : DB) : Prop :=
  Forall (fun r => 1 <= Rating.score r <= 5
                   /\ Rating.rater_id r <> Rating.ratee_id r) (ratings d)
  /\ forall t u v, (List.length (ratings_by t u v d) <= 1)%nat.

(** ** Uploaded file names

    A file name is the byte string of its UTF-8 text.  [lower] lowers the
    ASCII letters; no other character lowers to a letter of an allowed
    extension, so membership in [ALLOWED_EXTENSIONS] is that of Python's
    [str.lower]. *)

Definition ALLOWED_EXTENSIONS : list string := ["png"; "jpg"; "jpeg"; "gif"].

Definition is_dot (c : Ascii.ascii) : bool := Ascii.eqb c "."%char.

(** ['.' in s] *)
Fixpoint has_dot (s : string) : bool :=
  match s with
  | EmptyString => false
  | String c s' => is_dot c || has_dot s'
  end.

(** [s.rsplit('.', 1)[1]]: what follows the last dot of [s]; [None] stands
    for the IndexError on a name without a dot. *)
Fixpoint after_last_dot (s : string) : option string :=
  match s with
  | EmptyString => None
  | String c s' =>
      match after_last_dot s' with
      | Some ext => Some ext
      | None => if is_dot c then Some s' else None
      end
  end.

Definition lower_char (c : Ascii.ascii) : Ascii.ascii :=
  let n := Ascii.nat_of_ascii c in
  if ((65 <=? n)%nat && (n <=? 90)%nat)%bool
  then Ascii.ascii_of_nat (n + 32) else c.

(** [s.lower()] *)
Fixpoint lower (s : string) : string :=
  match s with
  | EmptyString => EmptyString
  | String c s' => String (lower_char c) (lower s')
  end.

(** [allowed_file] *)
Definition allowed_file (filename : string) : bool :=
  has_dot filename
  && match after_last_dot filename with
     | Some ext => existsb (String.eqb (lower ext)) ALLOWED_EXTENSIONS
     | None => false
     end.

(** ** A small club

    Ada registers with the admin address, Bob with another. *)

Definition ada_form : RegisterData :=
  Build_RegisterData (Val "ada") (Val "wavecommunnity@gmail.com")
                     (Val "secret") (Val "seeker") Absent.

Definition bob_form : RegisterData :=
  Build_RegisterData (Val "bob") (Val "bob@example.org") (Val "secret")
                     (Val "user") Null.

Definition signups : list (request * option nat) :=
  [(Register ada_form, None); (Register bob_form, None)].

Definition ada : User.t :=
  User.mk 1 "ada" "wavecommunnity@gmail.com" "seeker" None None None None
          true.

Definition bob : User.t :=
  User.mk 2 "bob" "bob@example.org" "user" None None None None false.


Definition tap_form : TaskData :=
  Build_TaskData (Val "Fix tap") (Val "The kitchen tap leaks")
                 (Val "plumbing") (Val 0%Q) (Val 0%Q) Absent.


(** ** Running a handler *)

Ltac session_step :=
  cbv beta iota zeta delta
    [serve bind ret raise try_except query flush flushed write change
     session_delete bulk_delete commit rollback
     stored work doomed fault fst snd
     add_user add_task add_quote add_rating add_notification
     create_notification];
  cbn [fold_left app unmark].

Ltac split_match :=
  match goal with
  | |- context [match ?x with _ => _ end] =>
      lazymatch x with
      | context [match _ with _ => _ end] => fail
      | _ => destruct x eqn:?
      end
  end.

Ltac run_handler := repeat (session_step; try split_match).

Ltac known_values :=
  repeat match goal with
         | H : value _ = _ |- _ => rewrite H in *; clear H
         end.

Ltac tables :=
  unfold with_users, with_tasks, with_quotes, with_ratings,
    with_notifications;
  cbn [users tasks quotes ratings notifications].

Section Lists.
Context {A : Type} (key : A -> Z).

Lemma update_where_twice (i : Z) (f g : A -> A) (rows : list A) :
  (forall r, key (g r) = key r) ->
  update_where key i f (update_where key i g rows)
  = update_where key i (fun r => f (g r)) rows.
Proof.
  intros Hk. unfold update_where. rewrite map_map. apply map_ext.
  intros r. destruct (key r =? i) eqn:E.
  - rewrite Hk, E. reflexivity.
  - rewrite E. reflexivity.
Qed.

Lemma find_key (i : Z) (p : A -> bool) (rows : list A) (r : A) :
  find (fun x => (key x =? i) && p x) rows = Some r ->
  key r = i /\ p r = true.
Proof.
  intros H. apply find_some in H. destruct H as [_ H].
  apply andb_true_iff in H. rewrite Z.eqb_eq in H. exact H.
Qed.

Lemma get_key (i : Z) (rows : list A) (r : A) :
  find (fun x => key x =? i) rows = Some r -> key r = i.
Proof.
  intros H. apply find_some in H. destruct H as [_ H].
  apply Z.eqb_eq in H. exact H.
Qed.

(** Two rows of a table with a primary key that share their key are one. *)
Lemma unique_key (rows : list A) (r r' : A) :
  NoDup (map key rows) -> In r rows -> In r' rows -> key r = key r' ->
  r = r'.
Proof.
  induction rows as [|a rows IH]; cbn [map In]; intros Hn Hr Hr' Hk.
  - contradiction.
  - inversion Hn as [|? ? Hnot Hn']; subst.
    destruct Hr as [->|Hr], Hr' as [->|Hr'].
    + reflexivity.
    + exfalso. apply Hnot. rewrite Hk. apply in_map. exact Hr'.
    + exfalso. apply Hnot. rewrite <- Hk. apply in_map. exact Hr.
    + apply IH; assumption.
Qed.

Lemma get_in (i : Z) (rows : list A) (r : A) :
  find (fun x => key x =? i) rows = Some r -> In r rows.
Proof.
  intros H. apply find_some in H. apply H.
Qed.

End Lists.

Lemma next_id_above (ids : list Z) (i : Z) : In i ids -> i < next_id ids.
Proof.
  unfold next_id. induction ids as [|a ids IH]; cbn [fold_right In]; intros H.
  - contradiction.
  - destruct H as [->|H]; [|specialize (IH H)]; lia.
Qed.

Lemma next_id_fresh (ids : list Z) : ~ In (next_id ids) ids.
Proof.
  intros H. apply next_id_above in H. lia.
Qed.

Lemma for_each_changes {A} (g : DB -> A -> DB) (body : A -> M unit)
    (xs : list A) (s : Session) :
  (forall x s, body x s
     = (Ok tt, mkSession (stored s) (g (work s) x) (doomed s) (fault s))) ->
  for_each xs body s
  = (Ok tt, mkSession (stored s) (fold_left g xs (work s)) (doomed s)
                      (fault s)).
Proof.
  intros Hb. revert s. induction xs as [|x xs IH]; intros s.
  - destruct s; reflexivity.
  - cbn [for_each fold_left]. unfold bind. rewrite Hb, IH. reflexivity.
Qed.

(** ** The handlers in closed form *)

Lemma serve_accept_quote uid qid f db quote task :
  Quote_get qid db = Some quote ->
  Task_get (Quote.task_id quote) db = Some task ->
  Task.poster_id task = uid ->
  serve (accept_quote uid qid) f db =
    match f with
    | Some 0%nat => (resp Unhandled 500, db)
    | Some 1%nat => (resp Unhandled 500, accept_first quote task db)
    | _ => (resp (QuoteAccepted (assigned quote task)
                                (Quote.set_status QAccepted quote)) 200,
            accept_second quote task (accept_first quote task db))
    end.
Proof.
  intros Hq Ht Hp. pose proof (get_key _ _ _ _ Hq) as Hid.
  unfold accept_quote. session_step. rewrite Hq. session_step. rewrite Ht.
  session_step. rewrite Hp, Z.eqb_refl. cbn [negb]. session_step.
  rewrite (for_each_changes (decline task)) by reflexivity. session_step.
  unfold accept_first, accept_second, other_quotes, assigned. rewrite Hid.
  destruct f as [[|[|n]]|]; session_step; tables;
    rewrite ?update_where_twice by reflexivity; reflexivity.
Qed.

(** ** What [accept_quote] commits *)

Lemma declines_frame task os d :
  users (fold_left (decline task) os d) = users d
  /\ tasks (fold_left (decline task) os d) = tasks d
  /\ ratings (fold_left (decline task) os d) = ratings d.
Proof.
  revert d. induction os as [|o os IH]; intros d; cbn [fold_left].
  - auto.
  - destruct (IH (decline task d o)) as (Hu & Ht & Hr).
    rewrite Hu, Ht, Hr. auto.
Qed.

Lemma declines_quotes task os d :
  quotes (fold_left (decline task) os d)
  = map (fun r => if existsb (fun o => Quote.id o =? Quote.id r) os
                  then Quote.set_status QDeclined r else r) (quotes d).
Proof.
  revert d. induction os as [|o os IH]; intros d; cbn [fold_left existsb].
  - symmetry. apply map_id.
  - rewrite IH. unfold decline. tables. unfold update_where.
    rewrite map_map. apply map_ext. intros r.
    rewrite (Z.eqb_sym (Quote.id o)).
    destruct (Quote.id r =? Quote.id o); cbn [orb Quote.set_status Quote.id].
    + destruct (existsb _ os); reflexivity.
    + reflexivity.
Qed.

Lemma declines_notifications task os d :
  notifications (fold_left (decline task) os d)
  = decline_notes (Task.title task) os (notifications d).
Proof.
  revert d. induction os as [|o os IH]; intros d;
    cbn [fold_left decline_notes].
  - reflexivity.
  - rewrite IH. reflexivity.
Qed.

(** One notification per declined quote, to its helper, appended in order. *)
Lemma decline_notes_spec title os ns :
  exists new,
    decline_notes title os ns = ns ++ new
    /\ map Notification.user_id new = map Quote.helper_id os
    /\ Forall (fun n => Notification.message n = declined_message title
                        /\ Notification.is_read n = false) new.
Proof.
  revert ns. induction os as [|o os IH]; intros ns; cbn [decline_notes fold_left].
  - exists []. rewrite app_nil_r. auto.
  - destruct (IH (ns ++ [Notification.mk (next_id (map Notification.id ns))
        (Quote.helper_id o) (declined_message title) false]))
      as (new & He & Hu & Hf).
    eexists (_ :: new). unfold decline_notes in He. rewrite He.
    rewrite <- app_assoc. cbn [app map]. rewrite Hu.
    repeat split; auto.
Qed.

Lemma in_other_quotes task qid d r :
  In r (other_quotes task qid d)
  <-> In r (quotes d) /\ Quote.task_id r = Task.id task /\ Quote.id r <> qid.
Proof.
  unfold other_quotes, quotes_of. rewrite !filter_In, negb_true_iff.
  rewrite Z.eqb_eq, Z.eqb_neq. tauto.
Qed.

Lemma accept_first_quotes quote task d :
  quote_ids_unique d ->
  quotes (accept_first quote task d)
  = settled (Quote.id quote) (Task.id task) (quotes d).
Proof.
  intros Hn. unfold accept_first. tables. rewrite declines_quotes.
  unfold update_where, settled. rewrite map_map. apply map_ext_in.
  intros r Hr.
  destruct (existsb (fun o => Quote.id o =? Quote.id r)
              (other_quotes task (Quote.id quote) d)) eqn:E.
  - apply existsb_exists in E. destruct E as (o & Ho & Hid).
    apply Z.eqb_eq in Hid. apply in_other_quotes in Ho.
    destruct Ho as (Ho & Htask & Hne).
    assert (o = r) by (apply (unique_key Quote.id (quotes d)); auto).
    subst o. cbn [Quote.id Quote.set_status].
    apply Z.eqb_neq in Hne. rewrite Hne.
    apply Z.eqb_eq in Htask. rewrite Htask. reflexivity.
  - destruct (Quote.id r =? Quote.id quote) eqn:Ei; [reflexivity|].
    destruct (Quote.task_id r =? Task.id task) eqn:Et; [|reflexivity].
    exfalso. apply Z.eqb_neq in Ei. apply Z.eqb_eq in Et.
    assert (Hin : In r (other_quotes task (Quote.id quote) d))
      by (apply in_other_quotes; auto).
    assert (Hex : existsb (fun o => Quote.id o =? Quote.id r)
                    (other_quotes task (Quote.id quote) d) = true)
      by (apply existsb_exists; exists r; split; [exact Hin|apply Z.eqb_refl]).
    congruence.
Qed.

Lemma accept_first_tasks quote task d :
  tasks (accept_first quote task d)
  = update_where Task.id (Task.id task) (assigned quote) (tasks d).
Proof.
  unfold accept_first. tables.
  destruct (declines_frame task (other_quotes task (Quote.id quote) d) d)
    as (_ & Ht & _).
  rewrite Ht. reflexivity.
Qed.

Lemma accept_first_notifications quote task d :
  notifications (accept_first quote task d)
  = decline_notes (Task.title task) (other_quotes task (Quote.id quote) d)
                  (notifications d).
Proof.
  unfold accept_first. tables. apply declines_notifications.
Qed.

Lemma accept_first_frame quote task d :
  users (accept_first quote task d) = users d
  /\ ratings (accept_first quote task d) = ratings d.
Proof.
  unfold accept_first. tables.
  destruct (declines_frame task (other_quotes task (Quote.id quote) d) d)
    as (Hu & _ & Hr).
  auto.
Qed.

Lemma filter_map_in {A B} (p : B -> bool) (p' : A -> bool) (g : A -> B)
    (l : list A) :
  (forall r, In r l -> p (g r) = p' r) ->
  filter p (map g l) = map g (filter p' l).
Proof.
  induction l as [|a l IH]; cbn [map filter]; intros H.
  - reflexivity.
  - rewrite (H a) by (left; reflexivity).
    rewrite IH by (intros r Hr; apply H; right; exact Hr).
    destruct (p' a); reflexivity.
Qed.

Lemma filter_both {A} (p q : A -> bool) (l : list A) :
  filter p (filter q l) = filter (fun x => q x && p x) l.
Proof.
  induction l as [|a l IH]; cbn [filter].
  - reflexivity.
  - destruct (q a); cbn [filter andb]; rewrite IH; reflexivity.
Qed.

(** With a primary key, selecting by the key of a row selects that row. *)
Lemma filter_key {A} (key : A -> Z) (rows : list A) (r : A) :
  NoDup (map key rows) -> In r rows ->
  filter (fun x => key x =? key r) rows = [r].
Proof.
  induction rows as [|a rows IH]; cbn [map In filter]; intros Hn Hr.
  - contradiction.
  - inversion Hn as [|? ? Hnot Hn']; subst. destruct Hr as [->|Hr].
    + rewrite Z.eqb_refl. f_equal.
      destruct (filter (fun x => key x =? key r) rows) as [|b l] eqn:E;
        [reflexivity|].
      exfalso. assert (Hb : In b (filter (fun x => key x =? key r) rows))
        by (rewrite E; left; reflexivity).
      apply filter_In in Hb. destruct Hb as [Hb Hk].
      apply Z.eqb_eq in Hk. apply Hnot. rewrite <- Hk. apply in_map. exact Hb.
    + destruct (key a =? key r) eqn:E.
      * exfalso. apply Z.eqb_eq in E. apply Hnot. rewrite E.
        apply in_map. exact Hr.
      * apply IH; assumption.
Qed.

(** After the acceptance the accepted quotes of the task are the one quote. *)
Lemma settled_accepted quote qs :
  NoDup (map Quote.id qs) -> In quote qs ->
  filter (fun q => quote_status_eqb (Quote.status q) QAccepted)
    (filter (fun q => Quote.task_id q =? Quote.task_id quote)
       (settled (Quote.id quote) (Quote.task_id quote) qs))
  = [Quote.set_status QAccepted quote].
Proof.
  intros Hn Hq. unfold settled.
  rewrite (filter_map_in _ (fun q => Quote.task_id q =? Quote.task_id quote));
    cycle 1.
  { intros r _. destruct (Quote.id r =? Quote.id quote); [reflexivity|].
    destruct (Quote.task_id r =? Quote.task_id quote) eqn:E;
      cbn [Quote.task_id Quote.set_status]; rewrite ?E; reflexivity. }
  rewrite (filter_map_in _ (fun q => Quote.id q =? Quote.id quote)); cycle 1.
  { intros r Hr. apply filter_In in Hr. destruct Hr as [_ Ht].
    destruct (Quote.id r =? Quote.id quote) eqn:E; [reflexivity|].
    rewrite Ht. reflexivity. }
  assert (He : filter (fun q => Quote.id q =? Quote.id quote)
                 (filter (fun q => Quote.task_id q =? Quote.task_id quote) qs)
               = [quote]).
  { rewrite <- (filter_key Quote.id qs quote Hn Hq).
    rewrite filter_both. apply filter_ext_in. intros r Hr.
    destruct (Quote.id r =? Quote.id quote) eqn:E;
      [|apply andb_false_r].
    apply Z.eqb_eq in E.
    rewrite (unique_key Quote.id qs r quote Hn Hr Hq E).
    rewrite Z.eqb_refl. reflexivity. }
  rewrite He. cbn [map]. rewrite Z.eqb_refl. reflexivity.
Qed.

Lemma get_update {A} (key : A -> Z) (i : Z) (f : A -> A) (rows : list A) :
  (forall r, key (f r) = key r) ->
  find (fun x => key x =? i) (update_where key i f rows)
  = option_map f (find (fun x => key x =? i) rows).
Proof.
  intros Hk. induction rows as [|a rows IH]; cbn [update_where map find].
  - reflexivity.
  - destruct (key a =? i) eqn:E.
    + rewrite Hk, E. reflexivity.
    + rewrite E. exact IH.
Qed.

(** A request that [accept_quote] turns down leaves the store as it was. *)
Lemma serve_accept_quote_rejected uid qid f db :
  match Quote_get qid db with
  | None => serve (accept_quote uid qid) f db
            = (resp (Error "Quote not found") 404, db)
  | Some quote =>
    match Task_get (Quote.task_id quote) db with
    | None => serve (accept_quote uid qid) f db = (resp Unhandled 500, db)
    | Some task =>
      Task.poster_id task <> uid ->
      serve (accept_quote uid qid) f db
      = (resp (Error "Only the task poster can accept quotes") 403, db)
    end
  end.
Proof.
  destruct (Quote_get qid db) as [quote|] eqn:Hq.
  - destruct (Task_get (Quote.task_id quote) db) as [task|] eqn:Ht.
    + intros Hp. apply Z.eqb_neq in Hp. unfold accept_quote. session_step.
      rewrite Hq. session_step. rewrite Ht. session_step. rewrite Hp.
      reflexivity.
    + unfold accept_quote. session_step. rewrite Hq. session_step.
      rewrite Ht. reflexivity.
  - unfold accept_quote. session_step. rewrite Hq. reflexivity.
Qed.

(** [accept_quote] answers 200 only when the quote and its task exist, the
    caller is the poster and both commits went through. *)
Lemma accept_quote_accepted uid qid f db r db' :
  serve (accept_quote uid qid) f db = (r, db') ->
  code r = 200 ->
  exists quote task,
    Quote_get qid db = Some quote
    /\ Task_get (Quote.task_id quote) db = Some task
    /\ Task.poster_id task = uid
    /\ r = resp (QuoteAccepted (assigned quote task)
                               (Quote.set_status QAccepted quote)) 200
    /\ db' = accept_second quote task (accept_first quote task db).
Proof.
  intros Hs Hc. pose proof (serve_accept_quote_rejected uid qid f db) as Hr.
  destruct (Quote_get qid db) as [quote|] eqn:Hq.
  - destruct (Task_get (Quote.task_id quote) db) as [task|] eqn:Ht.
    + destruct (Z.eq_dec (Task.poster_id task) uid) as [Hp|Hp].
      * exists quote, task.
        rewrite (serve_accept_quote uid qid f db quote task Hq Ht Hp) in Hs.
        destruct f as [[|[|n]]|]; inversion Hs; subst; cbn [code] in Hc;
          try discriminate; auto.
      * rewrite (Hr Hp) in Hs. inversion Hs; subst. discriminate.
    + rewrite Hr in Hs. inversion Hs; subst. discriminate.
  - rewrite Hr in Hs. inversion Hs; subst. discriminate.
Qed.

(** ** The other handlers in closed form *)

Lemma serve_submit_quote uid tid c h m f db t :
  m <> "" ->
  open_task tid db = Some t ->
  serve (submit_quote uid tid (Some c) (Some h) (Some m)) f db =
    match f with
    | Some 0%nat => (resp Unhandled 500, db)
    | _ => (resp (AQuote (new_quote uid tid c h m db)) 201,
            quote_submitted uid tid c h m db)
    end.
Proof.
  intros Hm Ht. apply String.eqb_neq in Hm.
  unfold submit_quote, no_text. rewrite Hm. session_step. rewrite Ht.
  session_step. unfold quote_submitted, new_quote.
  destruct (existing_quote uid tid db) as [e|]; destruct f as [[|n]|];
    session_step; reflexivity.
Qed.

Lemma serve_delete_task uid tid f db t :
  owned_task uid tid db = Some t ->
  Task.status t = TOpen ->
  serve (delete_task uid tid) f db =
    match f with
    | Some 0%nat | Some 1%nat | Some 2%nat =>
        (resp (Error "Failed to delete task") 500, db)
    | _ => (resp (Message "Task deleted successfully") 200,
            task_deleted tid db)
    end.
Proof.
  intros Ht Hs. destruct (find_key _ _ _ _ _ Ht) as [Hid _].
  unfold delete_task. session_step. rewrite Ht. session_step. rewrite Hs.
  cbn [task_status_eqb negb]. session_step. unfold task_deleted. rewrite Hid.
  destruct f as [[|[|[|n]]]|]; session_step; reflexivity.
Qed.


(** ** The invariants are kept *)

Lemma filter_length_mono {A} (p q : A -> bool) (l : list A) :
  (forall x, p x = true -> q x = true) ->
  (List.length (filter p l) <= List.length (filter q l))%nat.
Proof.
  intros H. induction l as [|a l IH]; cbn [filter].
  - apply Nat.le_refl.
  - destruct (p a) eqn:E.
    + rewrite (H a E). cbn [List.length]. lia.
    + destruct (q a); cbn [List.length]; lia.
Qed.

Lemma delete_where_length {A} (p d : A -> bool) (l : list A) :
  (List.length (filter p (delete_where d l)) <= List.length (filter p l))%nat.
Proof.
  unfold delete_where. rewrite filter_both. apply filter_length_mono.
  intros x H. apply andb_true_iff in H. apply H.
Qed.


Lemma NoDup_map_filter {A} (key : A -> Z) (p : A -> bool) (l : list A) :
  NoDup (map key l) -> NoDup (map key (filter p l)).
Proof.
  induction l as [|a l IH]; cbn [map filter]; intros H.
  - constructor.
  - inversion H as [|? ? Hnot Hn]; subst. destruct (p a); cbn [map].
    + constructor; [|apply IH; exact Hn].
      intros Hin. apply Hnot. apply in_map_iff in Hin.
      destruct Hin as (x & Hx & Hin). apply filter_In in Hin.
      rewrite <- Hx. apply in_map. apply Hin.
    + apply IH; exact Hn.
Qed.

Lemma find_none_filter {A} (p : A -> bool) (l : list A) :
  find p l = None -> filter p l = [].
Proof.
  induction l as [|a l IH]; cbn [find filter]; intros H.
  - reflexivity.
  - destruct (p a); [discriminate | apply IH; exact H].
Qed.










Lemma run_invariant (P : DB -> Prop) :
  (forall r f db, P db -> P (step r f db)) ->
  forall rs db, P db -> P (run rs db).
Proof.
  intros Hstep rs. induction rs as [|[r f] rs IH]; cbn [run]; intros db H.
  - exact H.
  - apply IH. apply Hstep. exact H.
Qed.

Lemma submitted_frame uid tid c h m d :
  users (quote_submitted uid tid c h m d) = users d
  /\ tasks (quote_submitted uid tid c h m d) = tasks d
  /\ ratings (quote_submitted uid tid c h m d) = ratings d
  /\ notifications (quote_submitted uid tid c h m d) = notifications d.
Proof.
  unfold quote_submitted. destruct (existing_quote uid tid d); auto.
Qed.



Lemma among_spec x a b : among x a b = true <-> x = a \/ b = Some x.
Proof.
  unfold among. rewrite orb_true_iff, Z.eqb_eq. destruct b as [h|].
  - rewrite Z.eqb_eq. split; intros [H|H]; auto; [right|right]; congruence.
  - split; intros [H|H]; auto; discriminate.
Qed.

Lemma serve_complete_task uid tid f db :
  serve (complete_task uid tid) f db =
    match Task_get tid db with
    | None => (resp (Error "Task not found") 404, db)
    | Some task =>
      if among uid (Task.poster_id task) (Task.helper_id task)
      then match f with
           | Some 0%nat => (resp Unhandled 500, db)
           | _ => (resp (ATask (Task.set_status TCompleted task)) 200,
                   with_tasks (update_where Task.id tid
                                 (Task.set_status TCompleted)) db)
           end
      else (resp (Error "You're not authorized to complete this task") 403,
            db)
    end.
Proof.
  unfold complete_task. session_step.
  destruct (Task_get tid db) as [task|] eqn:Ht; [|reflexivity].
  rewrite (get_key _ _ _ _ Ht).
  destruct (among uid _ _); [|reflexivity].
  destruct f as [[|n]|]; reflexivity.
Qed.


Lemma find_existsb {A} (p : A -> bool) (l : list A) :
  existsb p l = match find p l with Some _ => true | None => false end.
Proof.
  induction l as [|a l IH]; cbn [existsb find].
  - reflexivity.
  - destruct (p a); [reflexivity | exact IH].
Qed.

Lemma serve_create_rating actor task_id ratee_id score comment f db :
  serve (create_rating actor task_id ratee_id score comment) f db =
    match first_violated actor task_id ratee_id score db with
    | Some c => (refusal c, db)
    | None =>
      match task_id, ratee_id, score with
      | Some tid, Some ratee, Some sc =>
        match f with
        | Some 0%nat => (resp Unhandled 500, db)
        | _ => (resp (ARating (new_rating actor tid ratee sc comment db)) 201,
                with_ratings
                  (fun rs => rs ++ [new_rating actor tid ratee sc comment db])
                  db)
        end
      | _, _, _ => (resp Unhandled 500, db)
      end
    end.
Proof.
  unfold first_violated, checks, create_rating.
  destruct task_id as [tid|], ratee_id as [ratee|], score as [sc|];
    try (cbn [find holds truthy andb negb]; session_step;
         rewrite ?andb_false_r; reflexivity).
  cbn [find holds rated_task].
  destruct (truthy (Some tid) && truthy (Some ratee) && truthy (Some sc));
    cbn [negb]; [|reflexivity].
  destruct ((1 <=? sc) && (sc <=? 5)); cbn [negb]; [|reflexivity].
  session_step.
  destruct (Task_get tid db) as [task|]; cbn [negb]; [|reflexivity].
  destruct (task_status_eqb (Task.status task) TCompleted); cbn [negb];
    [|reflexivity].
  destruct (among actor _ _); cbn [negb]; [|reflexivity].
  destruct (among ratee _ _); cbn [negb andb orb]; [|reflexivity].
  destruct (ratee =? actor); cbn [negb]; [reflexivity|].
  rewrite find_existsb. session_step. unfold existing_rating.
  destruct (find _ (ratings db)); cbn [negb]; [reflexivity|].
  destruct f as [[|n]|]; reflexivity.
Qed.

Lemma all_checks_hold actor task_id ratee_id score d :
  first_violated actor task_id ratee_id score d = None ->
  forall c, holds c actor task_id ratee_id score d = true.
Proof.
  intros H c. apply negb_false_iff.
  apply (find_none _ _ H). destruct c; cbn; tauto.
Qed.


Lemma serve_delete_task_rejected uid tid f db :
  match owned_task uid tid db with
  | None => serve (delete_task uid tid) f db
            = (resp (Error "Task not found or you don't own it") 404, db)
  | Some task =>
      Task.status task <> TOpen ->
      serve (delete_task uid tid) f db
      = (resp (Error "Only open tasks can be deleted") 400, db)
  end.
Proof.
  unfold delete_task. session_step.
  destruct (owned_task uid tid db) as [task|]; [|reflexivity].
  intros Hs. destruct (Task.status task); try congruence; reflexivity.
Qed.





Lemma market_quote_ids_unique : quote_ids_unique market.
Proof.
  unfold quote_ids_unique, market. cbn [quotes map Quote.id].
  repeat constructor; cbn [In]; intuition discriminate.
Defined.



(** ** The claims *)

(** C1.  After a successful AcceptQuote on quote q of task T, whatever the
    statuses of T's quotes were: the accepted quotes of T are exactly q; every
    other quote of T is declined, and the quotes of other tasks are as they
    were; T has status accepted and the helper, charges and hours of q; and
    the notifications are the earlier ones, then one per declined quote to
    its helper, then one to the accepted helper. *)
Theorem accept_quote_settles uid qid f db r db' :
  quote_ids_unique db ->
  serve (accept_quote uid qid) f db = (r, db') ->
  code r = 200 ->
  exists quote task declined,
    Quote_get qid db = Some quote
    /\ Task_get (Quote.task_id quote) db = Some task
    /\ accepted_of (Quote.task_id quote) db'
       = [Quote.set_status QAccepted quote]
    /\ (forall o, In o (quotes_of (Quote.task_id quote) db') ->
                  Quote.id o <> qid -> Quote.status o = QDeclined)
    /\ quotes db' = settled qid (Quote.task_id quote) (quotes db)
    /\ Task_get (Quote.task_id quote) db' = Some (assigned quote task)
    /\ Task.status (assigned quote task) = TAccepted
    /\ Task.helper_id (assigned quote task) = Some (Quote.helper_id quote)
    /\ Task.charges (assigned quote task) = Some (Quote.charges quote)
    /\ Task.hours (assigned quote task) = Some (Quote.hours quote)
    /\ notifications db'
       = notifications db ++ declined
         ++ [Notification.mk
               (next_id (map Notification.id (notifications db ++ declined)))
               (Quote.helper_id quote) (assigned_message (Task.title task))
               false]
    /\ map Notification.user_id declined
       = map Quote.helper_id
           (filter (fun o => negb (Quote.id o =? qid))
                   (quotes_of (Quote.task_id quote) db))
    /\ Forall (fun n =>
         Notification.message n = declined_message (Task.title task)
         /\ Notification.is_read n = false) declined.
Proof.
  intros Hn Hs Hc.
  destruct (accept_quote_accepted uid qid f db r db' Hs Hc)
    as (quote & task & Hq & Ht & Hp & _ & ->).
  pose proof (get_key _ _ _ _ Hq) as Hid.
  pose proof (get_key _ _ _ _ Ht) as Htid.
  pose proof (get_in _ _ _ _ Hq) as Hin.
  assert (Hqs : quotes (accept_second quote task (accept_first quote task db))
                = settled qid (Quote.task_id quote) (quotes db)).
  { unfold accept_second. tables. rewrite accept_first_quotes by exact Hn.
    rewrite Hid, Htid. reflexivity. }
  destruct (decline_notes_spec (Task.title task)
              (other_quotes task (Quote.id quote) db) (notifications db))
    as (declined & Hd & Hu & Hf).
  exists quote, task, declined. repeat split; auto.
  - unfold accepted_of, quotes_of. rewrite Hqs, <- Hid.
    apply settled_accepted; assumption.
  - intros o Ho Hne. unfold quotes_of in Ho. rewrite Hqs in Ho.
    apply filter_In in Ho. destruct Ho as [Ho Hto]. unfold settled in Ho.
    apply in_map_iff in Ho. destruct Ho as (x & <- & _).
    apply Z.eqb_neq in Hne. revert Hto Hne.
    destruct (Quote.id x =? qid) eqn:E1.
    + cbn [Quote.id Quote.set_status]. congruence.
    + destruct (Quote.task_id x =? Quote.task_id quote) eqn:E2.
      * reflexivity.
      * congruence.
  - unfold accept_second, Task_get. tables. rewrite accept_first_tasks, Htid.
    rewrite get_update by reflexivity.
    unfold Task_get in Ht. rewrite Ht. reflexivity.
  - unfold accept_second. tables. rewrite accept_first_notifications, Hd.
    rewrite <- app_assoc. reflexivity.
  - rewrite Hu. unfold other_quotes. rewrite Hid, Htid. reflexivity.
Qed.

Lemma accept_quote_settles_witness :
  exists quote task declined,
    Quote_get 1 market = Some quote
    /\ Task_get (Quote.task_id quote) market = Some task
    /\ accepted_of (Quote.task_id quote) market_settled
       = [Quote.set_status QAccepted quote]
    /\ (forall o, In o (quotes_of (Quote.task_id quote) market_settled) ->
                  Quote.id o <> 1 -> Quote.status o = QDeclined)
    /\ quotes market_settled
       = settled 1 (Quote.task_id quote) (quotes market)
    /\ Task_get (Quote.task_id quote) market_settled
       = Some (assigned quote task)
    /\ Task.status (assigned quote task) = TAccepted
    /\ Task.helper_id (assigned quote task) = Some (Quote.helper_id quote)
    /\ Task.charges (assigned quote task) = Some (Quote.charges quote)
    /\ Task.hours (assigned quote task) = Some (Quote.hours quote)
    /\ notifications market_settled
       = notifications market ++ declined
         ++ [Notification.mk
               (next_id (map Notification.id (notifications market ++ declined)))
               (Quote.helper_id quote) (assigned_message (Task.title task))
               false]
    /\ map Notification.user_id declined
       = map Quote.helper_id
           (filter (fun o => negb (Quote.id o =? 1))
                   (quotes_of (Quote.task_id quote) market))
    /\ Forall (fun n =>
         Notification.message n = declined_message (Task.title task)
         /\ Notification.is_read n = false) declined.
Proof.
  apply (accept_quote_settles 1 1 None market
           (fst (serve (accept_quote 1 1) None market)) market_settled
           market_quote_ids_unique eq_refl eq_refl).
Defined.

(** C2, as the code has it.  AcceptQuote commits twice.  The first commit
    holds the declines of the other quotes with their notifications, the
    acceptance of the selected quote and the update of the task; the second
    holds only the notification to the accepted helper.  When the first commit
    fails nothing is persisted; when the second fails the first stays
    persisted and the notification to the accepted helper is missing. *)
Theorem accept_quote_commits_twice uid qid db quote task :
  quote_ids_unique db ->
  Quote_get qid db = Some quote ->
  Task_get (Quote.task_id quote) db = Some task ->
  Task.poster_id task = uid ->
  let first := accept_first quote task db in
  let second := accept_second quote task first in
  serve (accept_quote uid qid) (Some 0%nat) db = (resp Unhandled 500, db)
  /\ serve (accept_quote uid qid) (Some 1%nat) db = (resp Unhandled 500, first)
  /\ (forall f, f <> Some 0%nat -> f <> Some 1%nat ->
        serve (accept_quote uid qid) f db
        = (resp (QuoteAccepted (assigned quote task)
                               (Quote.set_status QAccepted quote)) 200,
           second))
  /\ quotes first = settled qid (Quote.task_id quote) (quotes db)
  /\ tasks first
     = update_where Task.id (Quote.task_id quote) (assigned quote) (tasks db)
  /\ notifications first
     = decline_notes (Task.title task)
         (filter (fun o => negb (Quote.id o =? qid))
                 (quotes_of (Quote.task_id quote) db))
         (notifications db)
  /\ users first = users db
  /\ ratings first = ratings db
  /\ second
     = with_notifications (fun ns =>
         ns ++ [Notification.mk (next_id (map Notification.id ns))
                                (Quote.helper_id quote)
                                (assigned_message (Task.title task)) false])
         first.
Proof.
  intros Hn Hq Ht Hp first second.
  pose proof (get_key _ _ _ _ Hq) as Hid.
  pose proof (get_key _ _ _ _ Ht) as Htid.
  pose proof (fun f => serve_accept_quote uid qid f db quote task Hq Ht Hp)
    as Hs.
  destruct (accept_first_frame quote task db) as [Hu Hr].
  repeat split.
  - apply Hs.
  - apply Hs.
  - intros f H0 H1. rewrite Hs.
    destruct f as [[|[|n]]|]; try congruence; reflexivity.
  - subst first. rewrite accept_first_quotes by exact Hn.
    rewrite Hid, Htid. reflexivity.
  - subst first. rewrite accept_first_tasks, Htid. reflexivity.
  - subst first. rewrite accept_first_notifications.
    unfold other_quotes. rewrite Hid, Htid. reflexivity.
  - exact Hu.
  - exact Hr.
Qed.

Lemma accept_quote_commits_twice_witness :
  serve (accept_quote 1 1) (Some 1%nat) market
  = (resp Unhandled 500,
     accept_first (Quote.mk 1 1 2 50%Q 2%Q "555" QPending) tap market).
Proof.
  apply (accept_quote_commits_twice 1 1 market
           (Quote.mk 1 1 2 50%Q 2%Q "555" QPending) tap
           market_quote_ids_unique eq_refl eq_refl eq_refl).
Defined.

(** C2 fails on the code: when the second commit fails, the declines, the
    acceptance, the task update and the notification of the declined helper
    stay persisted. *)
Lemma accept_quote_not_atomic :
  serve (accept_quote 1 1) (Some 1%nat) market
  = (resp Unhandled 500, market_half)
  /\ market_half <> market
  /\ map Quote.status (quotes market_half) = [QAccepted; QDeclined]
  /\ map Quote.status (quotes market) = [QPending; QPending]
  /\ map Task.helper_id (tasks market_half) = [Some 2]
  /\ map Task.helper_id (tasks market) = [None]
  /\ map Notification.user_id (notifications market_half) = [3].
Proof.
  split; [vm_compute; reflexivity|].
  split; [intros H; discriminate H|].
  repeat split.
Qed.

















(** ** Every request, by what it commits *)

Lemma step_committed r f db :
  step r f db = db \/ committed db (caller r) (step r f db).
Proof.
  destruct r; unfold step, handler, caller.
  - unfold register. run_handler; try (left; reflexivity).
    all: known_values.
    all: right; cbn [snd].
    all: match goal with
         | |- committed _ _ (with_users
                (fun rs => rs ++ [User.mk _ ?n ?e ?r _ _ _ ?w _]) _) =>
             apply (registered db n e r w)
         end; try assumption.
    all: apply negb_false_iff; assumption.
  - unfold create_task. run_handler; try (left; reflexivity).
    all: known_values; right; cbn [snd]; apply task_created.
  - unfold update_location. run_handler; try (left; reflexivity).
    all: right; cbn [snd].
    all: match goal with
         | H : User_get _ _ = Some ?u |- _ =>
             pose proof (get_key _ _ _ _ H) as Hid; rewrite <- Hid in *;
             tables; rewrite update_where_twice by reflexivity;
             apply (location_updated db u (value latitude) (value longitude) H)
         end.
  - destruct charges as [c|], hours as [h|], mobile as [m|];
      try (left; reflexivity).
    destruct (String.eqb m "") eqn:Em.
    { left. unfold submit_quote, no_text. rewrite Em. reflexivity. }
    apply String.eqb_neq in Em.
    destruct (open_task task_id db) as [task|] eqn:Ht.
    + rewrite (serve_submit_quote _ _ c h m f db task Em Ht).
      destruct f as [[|n]|]; cbn [snd]; [left; reflexivity| |];
        right; apply (quote_stored db _ _ _ _ _ task Ht Em).
    + left. apply String.eqb_neq in Em. unfold submit_quote, no_text.
      rewrite Em. session_step. rewrite Ht. reflexivity.
  - unfold upload_profile_image. run_handler; try (left; reflexivity).
    all: right; cbn [snd].
    all: match goal with
         | H : User_get _ _ = Some ?u |- _ =>
             pose proof (get_key _ _ _ _ H) as Hid; rewrite <- Hid in *;
             apply (profile_image_set db u _ H)
         end.
  - pose proof (serve_accept_quote_rejected current_user_id quote_id f db)
      as Hr.
    destruct (Quote_get quote_id db) as [quote|] eqn:Hq;
      [|rewrite Hr; left; reflexivity].
    destruct (Task_get (Quote.task_id quote) db) as [task|] eqn:Ht;
      [|rewrite Hr; left; reflexivity].
    destruct (Z.eq_dec (Task.poster_id task) current_user_id) as [Hp|Hp];
      [|rewrite (Hr Hp); left; reflexivity].
    rewrite (serve_accept_quote _ _ f _ _ _ Hq Ht Hp).
    rewrite <- (get_key _ _ _ _ Hq) in Hq. rewrite <- Hp.
    destruct f as [[|[|n]]|]; cbn [snd]; [left; reflexivity| | |]; right.
    + apply quote_accepted_first; assumption.
    + apply quote_accepted; assumption.
    + apply quote_accepted; assumption.
  - unfold mark_notification_read. run_handler; try (left; reflexivity).
    all: right; cbn [snd].
    all: match goal with
         | H : own_notification _ _ _ = Some ?n |- _ =>
             destruct (find_key _ _ _ _ _ H) as [Hid _]; rewrite <- Hid in H;
             apply (notification_read db n _ H)
         end.
  - rewrite serve_complete_task.
    destruct (Task_get task_id db) as [task|] eqn:Ht; [|left; reflexivity].
    destruct (among _ _ _) eqn:Ha; [|left; reflexivity].
    pose proof (get_key _ _ _ _ Ht) as Hid. rewrite <- Hid in *.
    destruct f as [[|n]|]; cbn [snd]; [left; reflexivity| |]; right;
      apply (task_completed db task _ Ht Ha).
  - rewrite serve_create_rating.
    destruct (first_violated _ _ _ _ db) eqn:Hv; [left; reflexivity|].
    destruct task_id as [tid|], ratee_id as [ratee|], score as [sc|];
      try (left; reflexivity).
    destruct f as [[|n]|]; cbn [snd]; [left; reflexivity| |]; right;
      apply rating_stored; exact Hv.
  - pose proof (serve_delete_task_rejected current_user_id task_id f db)
      as Hr.
    destruct (owned_task current_user_id task_id db) as [task|] eqn:Ho;
      [|rewrite Hr; left; reflexivity].
    destruct (Task.status task) eqn:Es;
      try (rewrite Hr by discriminate; left; reflexivity).
    rewrite (serve_delete_task _ _ f _ _ Ho Es).
    destruct f as [[|[|[|n]]]|]; cbn [snd]; try (left; reflexivity);
      right; apply (task_removed db _ _ task Ho Es).
  - unfold upload_task_image. run_handler; try (left; reflexivity).
    all: right; cbn [snd].
    all: match goal with
         | H : owned_task _ _ _ = Some ?t |- _ =>
             destruct (find_key _ _ _ _ _ H) as [Hid _]; rewrite <- Hid in H;
             apply (task_image_set db _ t _ H)
         end.
Qed.

(** ** The users *)

Lemma NoDup_map_eq {A B} (f : A -> B) (l : list A) (a b : A) :
  NoDup (map f l) -> In a l -> In b l -> f a = f b -> a = b.
Proof.
  induction l as [|x l IH]; cbn [map In]; intros Hn Ha Hb He.
  - contradiction.
  - inversion Hn as [|? ? Hnot Hn']; subst.
    destruct Ha as [->|Ha], Hb as [->|Hb].
    + reflexivity.
    + exfalso. apply Hnot. rewrite He. apply in_map. exact Hb.
    + exfalso. apply Hnot. rewrite <- He. apply in_map. exact Ha.
    + apply IH; assumption.
Qed.

Lemma find_string_none {A} (key : A -> string) (s : string) (l : list A) :
  find (fun x => String.eqb (key x) s) l = None -> ~ In s (map key l).
Proof.
  intros H Hin. apply in_map_iff in Hin. destruct Hin as (x & Hx & Hin).
  apply (find_none _ _ H) in Hin. rewrite Hx, String.eqb_refl in Hin.
  discriminate Hin.
Qed.

Lemma NoDup_snoc {A} (l : list A) (a : A) :
  NoDup l -> ~ In a l -> NoDup (l ++ [a]).
Proof.
  intros Hn Ha. apply NoDup_app. repeat split.
  - exact Hn.
  - constructor; [intros []|constructor].
  - intros x Hx [<-|[]]. exact (Ha Hx).
Qed.

Lemma update_where_map {A B} (key : A -> Z) (p : A -> B) (i : Z)
    (g : A -> A) (rows : list A) :
  (forall r, p (g r) = p r) ->
  map p (update_where key i g rows) = map p rows.
Proof.
  intros Hp. unfold update_where. rewrite map_map. apply map_ext.
  intros r. destruct (key r =? i); [apply Hp | reflexivity].
Qed.

Lemma update_where_Forall {A} (key : A -> Z) (P : A -> Prop) (i : Z)
    (g : A -> A) (rows : list A) :
  (forall r, P r -> P (g r)) ->
  Forall P rows -> Forall P (update_where key i g rows).
Proof.
  intros Hg H. unfold update_where. apply Forall_map.
  apply (Forall_impl _ (P := P)); [|exact H].
  intros r Hr. destruct (key r =? i); auto.
Qed.

Lemma committed_users_ok d u d' :
  committed d u d' -> users_ok d -> users_ok d'.
Proof.
  unfold users_ok. intros Hc (He & Hu & Hf).
  destruct Hc; try (tables; auto; fail).
  - tables. rewrite !map_app. cbn [map new_user User.email User.username].
    repeat split.
    + apply NoDup_snoc; [exact He|]. apply find_string_none. assumption.
    + apply NoDup_snoc; [exact Hu|]. apply find_string_none. assumption.
    + apply Forall_app. split; [exact Hf|]. constructor; [|constructor].
      cbn [new_user User.role User.is_admin User.email]. auto.
  - tables. rewrite !update_where_map by reflexivity. repeat split; auto.
    apply update_where_Forall; auto.
  - destruct (submitted_frame uid tid c h m d) as (-> & _). auto.
  - tables. rewrite !update_where_map by reflexivity. repeat split; auto.
    apply update_where_Forall; auto.
  - destruct (accept_first_frame quote task d) as (-> & _). auto.
  - unfold accept_second. tables.
    destruct (accept_first_frame quote task d) as (-> & _). auto.
Qed.

Lemma step_preserves (P : DB -> Prop) :
  (forall d u d', committed d u d' -> P d -> P d') ->
  forall r f db, P db -> P (step r f db).
Proof.
  intros H r f db Hp. destruct (step_committed r f db) as [->|Hc].
  - exact Hp.
  - exact (H _ _ _ Hc Hp).
Qed.

Lemma reachable (P : DB -> Prop) :
  (forall d u d', committed d u d' -> P d -> P d') ->
  forall rs db, P db -> P (run rs db).
Proof.
  intros H. apply run_invariant. apply step_preserves. exact H.
Qed.

Lemma empty_users_ok : users_ok empty_db.
Proof. repeat split; constructor. Defined.

(** X3.  Every request keeps e-mail addresses and user names unique, the roles
    among those [register] admits, and the admin flag set on exactly the user
    registered with the admin address; so after any requests on the empty
    store at most one user is an admin. *)
Theorem users_stay_distinct :
  (forall r f db, users_ok db -> users_ok (step r f db))
  /\ (forall rs, users_ok (run rs empty_db))
  /\ (forall rs u v,
        In u (users (run rs empty_db)) -> In v (users (run rs empty_db)) ->
        User.is_admin u = true -> User.is_admin v = true -> u = v).
Proof.
  split; [|split].
  - apply step_preserves. apply committed_users_ok.
  - intros rs. apply (reachable users_ok committed_users_ok).
    apply empty_users_ok.
  - intros rs u v Hu Hv Au Av.
    destruct (reachable users_ok committed_users_ok rs empty_db
                empty_users_ok) as (He & _ & Hf).
    rewrite Forall_forall in Hf.
    destruct (Hf u Hu) as [_ Eu]. destruct (Hf v Hv) as [_ Ev].
    rewrite Au in Eu. rewrite Av in Ev.
    symmetry in Eu, Ev. apply String.eqb_eq in Eu, Ev.
    apply (NoDup_map_eq User.email _ u v He Hu Hv). congruence.
Qed.

Lemma find_snoc_old {A} (p : A -> bool) (l : list A) (a r : A) :
  find p l = Some r -> find p (l ++ [a]) = Some r.
Proof.
  induction l as [|x l IH]; cbn [find app]; intros H.
  - discriminate.
  - destruct (p x); [exact H | apply IH; exact H].
Qed.

Lemma find_snoc_new {A} (p : A -> bool) (l : list A) (a : A) :
  find p l = None -> find p (l ++ [a]) = if p a then Some a else None.
Proof.
  induction l as [|x l IH]; cbn [find app]; intros H.
  - reflexivity.
  - destruct (p x); [discriminate | apply IH; exact H].
Qed.

Lemma get_fresh {A} (key : A -> Z) (l : list A) :
  find (fun x => key x =? next_id (map key l)) l = None.
Proof.
  destruct (find _ l) as [x|] eqn:E; [|reflexivity].
  exfalso. apply find_some in E. destruct E as [Hin Hk].
  apply Z.eqb_eq in Hk. apply (next_id_fresh (map key l)).
  rewrite <- Hk. apply in_map. exact Hin.
Qed.

Lemma serve_register data f db :
  serve (register data) f db =
    if negb (present (reg_username data) && present (reg_email data)
             && present (reg_password data) && present (reg_role data))
    then (resp (Error "Username, email, password, and role are required") 400,
          db)
    else if negb (role_allowed (value (reg_role data)))
    then (resp (Error "Role must be 'user' or 'seeker'") 400, db)
    else
      match user_by_email (value (reg_email data)) db with
      | Some _ => (resp (Error "Email already registered") 400, db)
      | None =>
        match user_by_username (value (reg_username data)) db with
        | Some _ => (resp (Error "Username already taken") 400, db)
        | None =>
          match value (reg_password data), value (reg_username data),
                value (reg_email data), value (reg_role data), f with
          | Some _, Some n, Some e, Some r, Some 0%nat =>
              (resp Unhandled 500, db)
          | Some _, Some n, Some e, Some r, _ =>
              (resp (Registered
                       (new_user n e r (value (reg_work_platform data)) db))
                    201,
               with_users
                 (fun us =>
                    us ++ [new_user n e r (value (reg_work_platform data)) db])
                 db)
          | _, _, _, _, _ => (resp Unhandled 500, db)
          end
        end
      end.
Proof.
  unfold register. run_handler; reflexivity.
Qed.

(** X2.  A registration with the four required values, an admitted role and an
    address and name not in use stores the user, who is found under the new
    id, has no location yet and is an admin exactly when the address is the
    admin address.  From then on a registration with that address is refused
    as "Email already registered", and one with that name and another
    address as "Username already taken"; neither changes the store. *)
Theorem register_once data n e p r db :
  reg_username data = Val n -> reg_email data = Val e ->
  reg_password data = Val p -> reg_role data = Val r ->
  role_allowed (Some r) = true ->
  user_by_email (Some e) db = None ->
  user_by_username (Some n) db = None ->
  exists user db',
    serve (register data) None db = (resp (Registered user) 201, db')
    /\ User_get (User.id user) db' = Some user
    /\ (User.username user, User.email user, User.role user) = (n, e, r)
    /\ (User.latitude user, User.longitude user, User.image_url user)
       = (None, None, None)
    /\ User.is_admin user = String.eqb e admin_email
    /\ (forall data' f,
          present (reg_username data') && present (reg_email data')
          && present (reg_password data') && present (reg_role data') = true ->
          role_allowed (value (reg_role data')) = true ->
          reg_email data' = Val e ->
          serve (register data') f db'
          = (resp (Error "Email already registered") 400, db'))
    /\ (forall data' f,
          present (reg_username data') && present (reg_email data')
          && present (reg_password data') && present (reg_role data') = true ->
          role_allowed (value (reg_role data')) = true ->
          user_by_email (value (reg_email data')) db' = None ->
          reg_username data' = Val n ->
          serve (register data') f db'
          = (resp (Error "Username already taken") 400, db')).
Proof.
  intros Hn He Hp Hr Hrole Hfe Hfn.
  set (user := new_user n e r (value (reg_work_platform data)) db).
  exists user, (with_users (fun us => us ++ [user]) db).
  assert (Hby_e : user_by_email (Some e)
                    (with_users (fun us => us ++ [user]) db) = Some user).
  { unfold user_by_email in *. tables. rewrite find_snoc_new by exact Hfe.
    cbn [user new_user User.email]. rewrite String.eqb_refl. reflexivity. }
  assert (Hby_n : user_by_username (Some n)
                    (with_users (fun us => us ++ [user]) db) = Some user).
  { unfold user_by_username in *. tables. rewrite find_snoc_new by exact Hfn.
    cbn [user new_user User.username]. rewrite String.eqb_refl.
    reflexivity. }
  split; [|split; [|split; [|split; [|split; [|split]]]]].
  - rewrite serve_register, Hn, He, Hp, Hr. cbn [present value andb negb].
    rewrite Hrole, Hfe, Hfn. reflexivity.
  - unfold User_get. tables. rewrite find_snoc_new by apply get_fresh.
    cbn [user new_user User.id]. rewrite Z.eqb_refl. reflexivity.
  - reflexivity.
  - reflexivity.
  - reflexivity.
  - intros data' f Hpres Hrole' He'. rewrite serve_register, Hpres, Hrole'.
    cbn [negb]. rewrite He'. cbn [value]. rewrite Hby_e. reflexivity.
  - intros data' f Hpres Hrole' Hfree Hn'.
    rewrite serve_register, Hpres, Hrole', Hfree. cbn [negb].
    rewrite Hn'. cbn [value]. rewrite Hby_n. reflexivity.
Qed.

(** X4.  The admin routes answer 403 "Admin only" to a caller who is not a stored
    user with the admin flag.  After any requests on the empty store the
    callers they let through are exactly the user registered with the admin
    address. *)
Theorem admin_routes_admin_only {A} (f : Z -> DB -> A) uid :
  (forall d,
     (forall u, User_get uid d = Some u -> User.is_admin u = false) ->
     admin_required f uid d = inl (resp (Error "Admin only") 403))
  /\ (forall d u,
        User_get uid d = Some u -> User.is_admin u = true ->
        admin_required f uid d = inr (f uid d))
  /\ (forall rs x,
        admin_required f uid (run rs empty_db) = inr x ->
        exists u, User_get uid (run rs empty_db) = Some u
                  /\ User.email u = admin_email
                  /\ x = f uid (run rs empty_db))
  /\ (forall rs u,
        User_get uid (run rs empty_db) = Some u ->
        User.email u = admin_email ->
        admin_required f uid (run rs empty_db) = inr (f uid (run rs empty_db))).
Proof.
  assert (Hflag : forall rs u,
            User_get uid (run rs empty_db) = Some u ->
            User.is_admin u = String.eqb (User.email u) admin_email).
  { intros rs u Hu.
    destruct (reachable users_ok committed_users_ok rs empty_db
                empty_users_ok) as (_ & _ & Hf).
    rewrite Forall_forall in Hf. apply Hf. eapply get_in. exact Hu. }
  split; [|split; [|split]].
  - intros d Hd. unfold admin_required.
    destruct (User_get uid d) as [u|]; [|reflexivity].
    rewrite (Hd u eq_refl). reflexivity.
  - intros d u Hu Ha. unfold admin_required. rewrite Hu, Ha. reflexivity.
  - intros rs x Hx. unfold admin_required in Hx.
    destruct (User_get uid (run rs empty_db)) as [u|] eqn:Hu;
      [|discriminate Hx].
    destruct (User.is_admin u) eqn:Ha; [|discriminate Hx].
    exists u. rewrite (Hflag rs u Hu) in Ha. apply String.eqb_eq in Ha.
    inversion Hx. auto.
  - intros rs u Hu He. unfold admin_required. rewrite Hu, (Hflag rs u Hu), He.
    rewrite String.eqb_refl. reflexivity.
Qed.

(** ** The tasks *)



Lemma get_update_other {A} (key : A -> Z) (i j : Z) (g : A -> A)
    (rows : list A) :
  (forall r, key (g r) = key r) -> i <> j ->
  find (fun x => key x =? j) (update_where key i g rows)
  = find (fun x => key x =? j) rows.
Proof.
  intros Hk Hij. induction rows as [|a rows IH]; cbn [update_where map find].
  - reflexivity.
  - destruct (key a =? i) eqn:E.
    + rewrite Hk. apply Z.eqb_eq in E.
      assert (Hj : (key a =? j) = false) by (apply Z.eqb_neq; congruence).
      rewrite Hj. exact IH.
    + destruct (key a =? j); [reflexivity | exact IH].
Qed.

Lemma get_delete_other {A} (key : A -> Z) (i j : Z) (rows : list A) :
  i <> j ->
  find (fun x => key x =? j) (delete_where (fun x => key x =? i) rows)
  = find (fun x => key x =? j) rows.
Proof.
  intros Hij. unfold delete_where.
  induction rows as [|a rows IH]; cbn [filter find].
  - reflexivity.
  - destruct (key a =? i) eqn:E; cbn [negb find].
    + apply Z.eqb_eq in E.
      assert (Hj : (key a =? j) = false) by (apply Z.eqb_neq; congruence).
      rewrite Hj. exact IH.
    + destruct (key a =? j); [reflexivity | exact IH].
Qed.

Lemma committed_task_ids_unique d u d' :
  committed d u d' -> task_ids_unique d -> task_ids_unique d'.
Proof.
  unfold task_ids_unique. intros Hc Hn.
  destruct Hc; try (tables; auto; fail).
  - tables. rewrite map_app. apply NoDup_snoc; [exact Hn|].
    apply next_id_fresh.
  - destruct (submitted_frame uid tid c h m d) as (_ & -> & _). exact Hn.
  - rewrite accept_first_tasks, update_where_map by reflexivity. exact Hn.
  - unfold accept_second. tables.
    rewrite accept_first_tasks, update_where_map by reflexivity. exact Hn.
  - tables. rewrite update_where_map by reflexivity. exact Hn.
  - unfold task_deleted. tables. apply NoDup_map_filter. exact Hn.
  - tables. rewrite update_where_map by reflexivity. exact Hn.
Qed.

Lemma assigned_ok quote t : assignment_ok (assigned quote t).
Proof. repeat split; discriminate. Qed.

Lemma committed_assignment_ok d u d' :
  committed d u d' ->
  Forall assignment_ok (tasks d) -> Forall assignment_ok (tasks d').
Proof.
  intros Hc Hf. destruct Hc; try (tables; auto; fail).
  - tables. apply Forall_app. split; [exact Hf|].
    constructor; [|constructor]. repeat split.
  - destruct (submitted_frame uid tid c h m d) as (_ & -> & _). exact Hf.
  - rewrite accept_first_tasks. unfold update_where. apply Forall_map.
    apply (Forall_impl _ (P := assignment_ok)); [|exact Hf].
    intros t Ht. destruct (_ =? _); [apply assigned_ok | exact Ht].
  - unfold accept_second. tables. rewrite accept_first_tasks.
    unfold update_where. apply Forall_map.
    apply (Forall_impl _ (P := assignment_ok)); [|exact Hf].
    intros t Ht. destruct (_ =? _); [apply assigned_ok | exact Ht].
  - tables. apply update_where_Forall; [|exact Hf]. intros t _. exact I.
  - unfold task_deleted. tables. unfold delete_where.
    apply Forall_forall. intros t Ht. apply filter_In in Ht.
    rewrite Forall_forall in Hf. apply Hf. apply Ht.
  - tables. apply update_where_Forall; [|exact Hf]. intros t Ht. exact Ht.
Qed.

(** X6.  Every request keeps this about every task: while it is open it has no
    helper, charges or hours, and while it is accepted it has all three.  So
    it holds after any requests on the empty store. *)
Theorem tasks_assigned_when_accepted :
  (forall r f db,
     Forall assignment_ok (tasks db) ->
     Forall assignment_ok (tasks (step r f db)))
  /\ (forall rs t,
        In t (tasks (run rs empty_db)) ->
        (Task.status t = TOpen ->
         Task.helper_id t = None /\ Task.charges t = None
         /\ Task.hours t = None)
        /\ (Task.status t = TAccepted ->
            exists h c x, Task.helper_id t = Some h /\ Task.charges t = Some c
                          /\ Task.hours t = Some x)).
Proof.
  split.
  - apply (step_preserves (fun d => Forall assignment_ok (tasks d))).
    apply committed_assignment_ok.
  - intros rs t Ht.
    pose proof (reachable (fun d => Forall assignment_ok (tasks d))
                  committed_assignment_ok rs empty_db (Forall_nil _)) as Hf.
    rewrite Forall_forall in Hf. specialize (Hf t Ht).
    unfold assignment_ok in Hf. split; intros Hs; rewrite Hs in Hf.
    + exact Hf.
    + destruct (Task.helper_id t) as [h|], (Task.charges t) as [c|],
        (Task.hours t) as [x|]; try (exfalso; intuition congruence).
      exists h, c, x. auto.
Qed.

Lemma committed_tasks d u d' t' :
  committed d u d' -> In t' (tasks d') ->
  (exists t, In t (tasks d) /\ posting t' = posting t)
  \/ (exists uid,
        u = Some uid
        /\ Task.poster_id t' = uid
        /\ Task.status t' = TOpen
        /\ Task.id t' = next_id (map Task.id (tasks d))
        /\ tasks d' = tasks d ++ [t']).
Proof.
  assert (Hsame : In t' (tasks d) ->
            exists t, In t (tasks d) /\ posting t' = posting t)
    by (intros H; exists t'; auto).
  assert (Hupd : forall i g,
            (forall t, posting (g t) = posting t) ->
            In t' (update_where Task.id i g (tasks d)) ->
            exists t, In t (tasks d) /\ posting t' = posting t).
  { intros i g Hg Hin. unfold update_where in Hin.
    apply in_map_iff in Hin. destruct Hin as (t & <- & Hin). exists t.
    split; [exact Hin|]. destruct (Task.id t =? i); [apply Hg|reflexivity]. }
  intros Hc. destruct Hc; try (tables; left; apply Hsame; assumption).
  - tables. intros Hin. apply in_app_or in Hin.
    destruct Hin as [Hin|[<-|[]]]; [left; auto|].
    right. exists uid. repeat split.
  - destruct (submitted_frame uid tid c h m d) as (_ & -> & _).
    left. auto.
  - rewrite accept_first_tasks. left. eapply Hupd; [|eassumption].
    reflexivity.
  - unfold accept_second. tables. rewrite accept_first_tasks.
    left. eapply Hupd; [|eassumption]. reflexivity.
  - tables. left. eapply Hupd; [|eassumption]. reflexivity.
  - unfold task_deleted. tables. intros Hin. apply filter_In in Hin.
    left. apply Hsame. apply Hin.
  - tables. left. eapply Hupd; [|eassumption]. reflexivity.
Qed.

(** X7.  No request changes the id, poster, title, description, category, reward
    or location of a task: every task of the store after a request either
    has these columns as a task of the store before, or is the open task
    that CreateTask has just appended for its caller under a new id. *)
Theorem postings_never_change r f db t' :
  In t' (tasks (step r f db)) ->
  (exists t, In t (tasks db) /\ posting t' = posting t)
  \/ (exists uid,
        caller r = Some uid
        /\ Task.poster_id t' = uid
        /\ Task.status t' = TOpen
        /\ Task.id t' = next_id (map Task.id (tasks db))
        /\ tasks (step r f db) = tasks db ++ [t']).
Proof.
  intros Hin. destruct (step_committed r f db) as [He|Hc].
  - rewrite He in Hin. left. exists t'. auto.
  - exact (committed_tasks _ _ _ _ Hc Hin).
Qed.

Lemma closed_not_open tid d t :
  task_ids_unique d -> Task_get tid d = Some t -> Task.status t <> TOpen ->
  open_task tid d = None.
Proof.
  intros Hn Ht Hs. destruct (open_task tid d) as [x|] eqn:E; [|reflexivity].
  exfalso. pose proof (find_some _ _ E) as [Hx Hp].
  apply andb_true_iff in Hp. destruct Hp as [Hid Hopen].
  apply Z.eqb_eq in Hid.
  assert (x = t).
  { apply (unique_key Task.id (tasks d)); auto.
    - eapply get_in. exact Ht.
    - rewrite (get_key _ _ _ _ Ht). exact Hid. }
  subst x. destruct (Task.status t); try discriminate Hopen. congruence.
Qed.

Lemma owned_is_got uid tid d x t :
  task_ids_unique d -> owned_task uid tid d = Some x ->
  Task_get tid d = Some t -> x = t.
Proof.
  intros Hn Ho Ht. pose proof (find_some _ _ Ho) as [Hx _].
  destruct (find_key _ _ _ _ _ Ho) as [Hid _].
  apply (unique_key Task.id (tasks d)); auto.
  - eapply get_in. exact Ht.
  - rewrite (get_key _ _ _ _ Ht). exact Hid.
Qed.

(** A task that is not open stays: no request deletes or reopens it. *)
Lemma committed_closed d u d' tid t :
  committed d u d' -> task_ids_unique d ->
  Task_get tid d = Some t -> Task.status t <> TOpen ->
  exists t', Task_get tid d' = Some t' /\ Task.status t' <> TOpen
             /\ posting t' = posting t.
Proof.
  intros Hc Hn Ht Hs.
  assert (Hsame : tasks d' = tasks d ->
            exists t', Task_get tid d' = Some t' /\ Task.status t' <> TOpen
                       /\ posting t' = posting t).
  { intros He. exists t. unfold Task_get in *. rewrite He. auto. }
  assert (Hupd : forall i g,
            (forall x, posting (g x) = posting x) ->
            (forall x, Task.status x <> TOpen -> Task.status (g x) <> TOpen) ->
            tasks d' = update_where Task.id i g (tasks d) ->
            exists t', Task_get tid d' = Some t' /\ Task.status t' <> TOpen
                       /\ posting t' = posting t).
  { intros i g Hp Hg He. unfold Task_get in *. rewrite He.
    assert (Hk : forall x, Task.id (g x) = Task.id x).
    { intros x. specialize (Hp x). unfold posting in Hp. congruence. }
    destruct (Z.eq_dec i tid) as [->|Hne].
    - rewrite get_update by exact Hk. rewrite Ht. cbn [option_map].
      exists (g t). auto.
    - rewrite get_update_other by assumption. exists t. auto. }
  destruct Hc; try (apply Hsame; reflexivity).
  - exists t. unfold Task_get in *. tables.
    split; [apply find_snoc_old; exact Ht | auto].
  - apply Hsame. destruct (submitted_frame uid tid0 c h m d) as (_ & -> & _).
    reflexivity.
  - apply (Hupd (Task.id task) (assigned quote)); try reflexivity.
    + intros x _. discriminate.
    + apply accept_first_tasks.
  - apply (Hupd (Task.id task) (assigned quote)); try reflexivity.
    + intros x _. discriminate.
    + unfold accept_second. tables. apply accept_first_tasks.
  - apply (Hupd (Task.id task) (Task.set_status TCompleted));
      try reflexivity. intros x _. discriminate.
  - destruct (Z.eq_dec tid0 tid) as [->|Hne].
    + exfalso. rewrite (owned_is_got _ _ _ _ _ Hn H Ht) in H0. congruence.
    + exists t. unfold Task_get, task_deleted in *. tables.
      rewrite get_delete_other by exact Hne. auto.
  - apply (Hupd (Task.id task) (Task.set_image_url (Some url)));
      try reflexivity. intros x Hx. exact Hx.
Qed.

Lemma serve_submit_quote_refused uid tid c h m f db :
  open_task tid db = None ->
  snd (serve (submit_quote uid tid c h m) f db) = db
  /\ (code (fst (serve (submit_quote uid tid c h m) f db)) = 400
      \/ code (fst (serve (submit_quote uid tid c h m) f db)) = 404).
Proof.
  intros Ho. unfold submit_quote.
  destruct c, h, m; try (split; [reflexivity | left; reflexivity]).
  destruct (no_text _); [split; [reflexivity | left; reflexivity]|].
  session_step. rewrite Ho. split; [reflexivity | right; reflexivity].
Qed.

(** X8.  Once a task is no longer open the negotiation on it is closed for good:
    whatever requests follow, the task is still stored, is not open and has
    its posting; SubmitQuote on it is refused with 400 or 404 and DeleteTask
    with 400 or 404, by any caller, and neither changes the store. *)
Theorem closed_for_good tid db t rs :
  task_ids_unique db ->
  Task_get tid db = Some t ->
  Task.status t <> TOpen ->
  (exists t', Task_get tid (run rs db) = Some t'
              /\ Task.status t' <> TOpen /\ posting t' = posting t)
  /\ (forall uid c h m f,
        snd (serve (submit_quote uid tid c h m) f (run rs db)) = run rs db
        /\ (code (fst (serve (submit_quote uid tid c h m) f (run rs db))) = 400
            \/ code (fst (serve (submit_quote uid tid c h m) f (run rs db)))
               = 404))
  /\ (forall uid f,
        snd (serve (delete_task uid tid) f (run rs db)) = run rs db
        /\ (code (fst (serve (delete_task uid tid) f (run rs db))) = 400
            \/ code (fst (serve (delete_task uid tid) f (run rs db))) = 404)).
Proof.
  intros Hn Ht Hs.
  assert (Hinv : task_ids_unique (run rs db)
                 /\ exists t', Task_get tid (run rs db) = Some t'
                               /\ Task.status t' <> TOpen
                               /\ posting t' = posting t).
  { apply (reachable (fun d => task_ids_unique d
             /\ exists t', Task_get tid d = Some t'
                           /\ Task.status t' <> TOpen
                           /\ posting t' = posting t)).
    - intros d u d' Hc (Hu & t1 & Ht1 & Hs1 & Hp1). split.
      + eapply committed_task_ids_unique; eauto.
      + destruct (committed_closed _ _ _ _ _ Hc Hu Ht1 Hs1)
          as (t2 & Ht2 & Hs2 & Hp2).
        exists t2. repeat split; auto. congruence.
    - split; [exact Hn|]. exists t. auto. }
  destruct Hinv as (Hn' & t' & Ht' & Hs' & Hp').
  split; [exists t'; auto|]. split.
  - intros uid c h m f. apply serve_submit_quote_refused.
    eapply closed_not_open; eauto.
  - intros uid f.
    pose proof (serve_delete_task_rejected uid tid f (run rs db)) as Hr.
    destruct (owned_task uid tid (run rs db)) as [x|] eqn:Ho.
    + rewrite (owned_is_got _ _ _ _ _ Hn' Ho Ht') in Hr.
      rewrite (Hr Hs'). cbn. auto.
    + rewrite Hr. cbn. auto.
Qed.

(** X9.  A request of a user who is neither the poster nor the helper of a task
    leaves the row of the task as it is: such a user can neither change nor
    delete the task. *)
Theorem strangers_leave_tasks r f db tid t :
  task_ids_unique db ->
  Task_get tid db = Some t ->
  (forall uid, caller r = Some uid ->
               uid <> Task.poster_id t /\ Task.helper_id t <> Some uid) ->
  Task_get tid (step r f db) = Some t.
Proof.
  intros Hn Ht Hu. destruct (step_committed r f db) as [->|Hc]; [exact Ht|].
  revert Hu. generalize (caller r) (step r f db) Hc. clear r f Hc.
  intros u d' Hc Hu.
  assert (Hupd : forall i g x,
            Task_get i db = Some x ->
            (i = tid -> False) ->
            tasks d' = update_where Task.id i g (tasks db) ->
            (forall y, Task.id (g y) = Task.id y) ->
            Task_get tid d' = Some t).
  { intros i g x Hx Hne He Hk. unfold Task_get in *. rewrite He.
    rewrite get_update_other; auto. }
  destruct Hc; try exact Ht.
  - unfold Task_get in *. tables. apply find_snoc_old. exact Ht.
  - unfold Task_get in *.
    destruct (submitted_frame uid tid0 c h m db) as (_ & -> & _). exact Ht.
  - pose proof (get_key _ _ _ _ H0) as Hid.
    apply (Hupd (Task.id task) (assigned quote) task); try reflexivity.
    + rewrite Hid. exact H0.
    + intros He. rewrite <- Hid, He, Ht in H0. inversion H0; subst.
      destruct (Hu _ eq_refl) as [Hp _]. congruence.
    + apply accept_first_tasks.
  - pose proof (get_key _ _ _ _ H0) as Hid.
    apply (Hupd (Task.id task) (assigned quote) task); try reflexivity.
    + rewrite Hid. exact H0.
    + intros He. rewrite <- Hid, He, Ht in H0. inversion H0; subst.
      destruct (Hu _ eq_refl) as [Hp _]. congruence.
    + unfold accept_second. tables. apply accept_first_tasks.
  - apply (Hupd (Task.id task) (Task.set_status TCompleted) task);
      try reflexivity; [exact H|].
    intros He. rewrite He, Ht in H. inversion H; subst.
    destruct (Hu _ eq_refl) as [Hp Hh]. apply among_spec in H0.
    destruct H0; congruence.
  - destruct (Z.eq_dec tid0 tid) as [->|Hne].
    + exfalso. pose proof (owned_is_got _ _ _ _ _ Hn H Ht). subst task.
      destruct (find_key _ _ _ _ _ H) as [_ Hp]. apply Z.eqb_eq in Hp.
      destruct (Hu _ eq_refl) as [Hq _]. congruence.
    + unfold Task_get, task_deleted in *. tables.
      rewrite get_delete_other by exact Hne. exact Ht.
  - pose proof (find_some _ _ H) as [Hin _].
    assert (Hg : Task_get (Task.id task) db = Some task).
    { unfold Task_get. 
      destruct (find (fun x => Task.id x =? Task.id task) (tasks db))
        as [y|] eqn:E.
      - f_equal. apply (unique_key Task.id (tasks db)); auto.
        + eapply get_in. exact E.
        + eapply get_key. exact E.
      - apply (find_none _ _ E) in Hin. rewrite Z.eqb_refl in Hin.
        discriminate Hin. }
    apply (Hupd (Task.id task) (Task.set_image_url (Some url)) task);
      try reflexivity; [exact Hg|].
    intros He. rewrite He, Ht in Hg. inversion Hg; subst.
    destruct (find_key _ _ _ _ _ H) as [_ Hp]. apply Z.eqb_eq in Hp.
    destruct (Hu _ eq_refl) as [Hq _]. congruence.
Qed.

(** ** Quotes, ratings and notifications *)








Lemma committed_ratings_ok d u d' :
  committed d u d' -> ratings_ok d -> ratings_ok d'.
Proof.
  unfold ratings_ok, ratings_by. intros Hc (Hf & Hu).
  destruct Hc; try (tables; auto; fail).
  - destruct (submitted_frame uid tid c h m d) as (_ & _ & -> & _). auto.
  - destruct (accept_first_frame quote task d) as (_ & ->). auto.
  - unfold accept_second. tables.
    destruct (accept_first_frame quote task d) as (_ & ->). auto.
  - pose proof (all_checks_hold _ _ _ _ _ H) as Hall.
    pose proof (Hall ScoreInRange) as H2. pose proof (Hall RateeOther) as H5.
    pose proof (Hall NotRatedYet) as H6. cbn [holds] in H2, H5, H6.
    tables. split.
    + apply Forall_app. split; [exact Hf|]. constructor; [|constructor].
      cbn [new_rating Rating.score Rating.rater_id Rating.ratee_id].
      apply andb_true_iff in H2. rewrite !Z.leb_le in H2. split; [lia|].
      destruct (rated_task (Some tid) d); [|discriminate H5].
      apply andb_true_iff in H5. destruct H5 as [_ H5].
      apply negb_true_iff, Z.eqb_neq in H5. congruence.
    + intros t u v. rewrite filter_app, length_app.
      cbn [filter new_rating Rating.task_id Rating.rater_id Rating.ratee_id].
      destruct ((tid =? t) && (actor =? u) && (ratee =? v)) eqn:E.
      * apply andb_true_iff in E. destruct E as [E E3].
        apply andb_true_iff in E. destruct E as [E1 E2].
        apply Z.eqb_eq in E1, E2, E3. subst t u v.
        apply negb_true_iff in H6. rewrite find_existsb in H6.
        destruct (find _ (ratings d)) eqn:Ef; [discriminate H6|].
        rewrite (find_none_filter _ _ Ef). cbn [List.length]. lia.
      * cbn [List.length]. rewrite Nat.add_0_r. apply Hu.
  - unfold task_deleted. tables. split.
    + unfold delete_where. apply Forall_forall. intros r Hr.
      apply filter_In in Hr. rewrite Forall_forall in Hf. apply Hf. apply Hr.
    + intros t u v. etransitivity; [apply delete_where_length | apply Hu].
Qed.

Lemma empty_ratings_ok : ratings_ok empty_db.
Proof. split; [constructor | intros t u v; apply Nat.le_0_l]. Defined.

(** X11.  Every request keeps the scores of the stored ratings in [1,5], keeps
    raters from rating themselves and keeps at most one rating per task,
    rater and ratee; so all three hold after any requests on the empty
    store. *)
Theorem ratings_stay_valid :
  (forall r f db, ratings_ok db -> ratings_ok (step r f db))
  /\ (forall rs x,
        In x (ratings (run rs empty_db)) ->
        1 <= Rating.score x <= 5 /\ Rating.rater_id x <> Rating.ratee_id x)
  /\ (forall rs t u v,
        (List.length (ratings_by t u v (run rs empty_db)) <= 1)%nat).
Proof.
  pose proof (fun rs => reachable ratings_ok committed_ratings_ok rs empty_db
                          empty_ratings_ok) as Hreach.
  split; [|split].
  - apply step_preserves. apply committed_ratings_ok.
  - intros rs x Hx. destruct (Hreach rs) as [Hf _].
    rewrite Forall_forall in Hf. apply Hf. exact Hx.
  - intros rs. apply (Hreach rs).
Qed.

Lemma committed_notifications d u d' :
  committed d u d' ->
  exists g added,
    notifications d' = map g (notifications d) ++ added
    /\ (forall n, g n = n \/ g n = Notification.set_is_read true n)
    /\ Forall (fun n => Notification.is_read n = false) added.
Proof.
  assert (Hsame : forall ns, ns = notifications d ->
            exists g added,
              ns = map g (notifications d) ++ added
              /\ (forall n, g n = n \/ g n = Notification.set_is_read true n)
              /\ Forall (fun n => Notification.is_read n = false) added).
  { intros ns ->. exists (fun n => n), []. rewrite map_id, app_nil_r. auto. }
  assert (Hfirst : forall quote task,
            exists new,
              notifications (accept_first quote task d)
              = notifications d ++ new
              /\ Forall (fun n => Notification.is_read n = false) new).
  { intros quote task. rewrite accept_first_notifications.
    destruct (decline_notes_spec (Task.title task)
                (other_quotes task (Quote.id quote) d) (notifications d))
      as (new & -> & _ & Hf).
    exists new. split; [reflexivity|].
    apply (Forall_impl _ (P := fun n =>
      Notification.message n = declined_message (Task.title task)
      /\ Notification.is_read n = false)); [|exact Hf]. intros n Hn. apply Hn. }
  intros Hc. destruct Hc; try (apply Hsame; tables; reflexivity).
  - apply Hsame. destruct (submitted_frame uid tid c h m d) as (_ & _ & _ & ->).
    reflexivity.
  - destruct (Hfirst quote task) as (new & -> & Hf).
    exists (fun n => n), new. rewrite map_id. auto.
  - destruct (Hfirst quote task) as (new & He & Hf).
    unfold accept_second. tables. rewrite He.
    eexists (fun n => n), (new ++ [_]). rewrite map_id, <- app_assoc.
    split; [reflexivity|]. split; [auto|].
    apply Forall_app. split; [exact Hf|]. constructor; [reflexivity|constructor].
  - tables. eexists _, []. rewrite app_nil_r. split; [reflexivity|].
    split; [|constructor]. intros n. cbv beta.
    destruct (_ =? _); auto.
Qed.

(** X12.  The notifications are only appended to: after any request they are those
    of before, in order, each as it was or marked read, followed by the new
    ones, which are unread.  No request deletes a notification, changes its
    recipient or message, or marks a read one unread. *)
Theorem notifications_append_only r f db :
  exists g added,
    notifications (step r f db) = map g (notifications db) ++ added
    /\ (forall n, g n = n \/ g n = Notification.set_is_read true n)
    /\ Forall (fun n => Notification.is_read n = false) added.
Proof.
  destruct (step_committed r f db) as [->|Hc].
  - exists (fun n => n), []. rewrite map_id, app_nil_r. auto.
  - exact (committed_notifications _ _ _ Hc).
Qed.






(** ** Uploaded file names *)

Lemma after_last_dot_none s : has_dot s = false -> after_last_dot s = None.
Proof.
  induction s as [|c s IH]; cbn [has_dot after_last_dot]; intros H.
  - reflexivity.
  - apply orb_false_iff in H. destruct H as [Hc Hs].
    rewrite (IH Hs), Hc. reflexivity.
Qed.

Lemma after_last_dot_app stem ext :
  has_dot ext = false ->
  after_last_dot (stem ++ String "."%char ext)%string = Some ext.
Proof.
  intros He. induction stem as [|c stem IH];
    cbn [String.append after_last_dot].
  - rewrite (after_last_dot_none _ He). reflexivity.
  - rewrite IH. reflexivity.
Qed.

Lemma has_dot_app stem ext :
  has_dot (stem ++ String "."%char ext)%string = true.
Proof.
  induction stem as [|c stem IH]; cbn [String.append has_dot].
  - reflexivity.
  - rewrite IH. apply orb_true_r.
Qed.

Lemma after_last_dot_split s ext :
  after_last_dot s = Some ext ->
  exists stem, s = (stem ++ String "."%char ext)%string
               /\ has_dot ext = false.
Proof.
  revert ext. induction s as [|c s IH]; cbn [after_last_dot]; intros ext H.
  - discriminate H.
  - destruct (after_last_dot s) as [e|] eqn:E.
    + inversion H; subst. destruct (IH ext eq_refl) as (stem & -> & Hd).
      exists (String c stem). auto.
    + destruct (is_dot c) eqn:Ec; [|discriminate H]. inversion H; subst.
      exists EmptyString. cbn [String.append]. split.
      * unfold is_dot in Ec. apply Ascii.eqb_eq in Ec. subst c. reflexivity.
      * destruct (has_dot ext) eqn:Hd; [|reflexivity].
        exfalso. clear -E Hd. induction ext as [|a ext IH];
          cbn [has_dot after_last_dot] in *; [discriminate Hd|].
        destruct (after_last_dot ext); [discriminate E|].
        destruct (is_dot a); [discriminate E|]. cbn [orb] in Hd. auto.
Qed.

(** X15.  [allowed_file] decides by what follows the last dot of the name,
    compared without regard to case with png, jpg, jpeg and gif: a name
    without a dot is refused, and a name is accepted exactly when it is
    stem.ext where ext has no dot and lowers to one of the four. *)
Theorem allowed_file_by_last_extension :
  (forall name, has_dot name = false -> allowed_file name = false)
  /\ (forall stem ext,
        has_dot ext = false ->
        allowed_file (stem ++ String "."%char ext)%string
        = existsb (String.eqb (lower ext)) ALLOWED_EXTENSIONS)
  /\ (forall name,
        allowed_file name = true <->
        exists stem ext,
          name = (stem ++ String "."%char ext)%string
          /\ has_dot ext = false
          /\ In (lower ext) ALLOWED_EXTENSIONS).
Proof.
  assert (Hmem : forall e,
            existsb (String.eqb e) ALLOWED_EXTENSIONS = true
            <-> In e ALLOWED_EXTENSIONS).
  { intros e. rewrite existsb_exists. split.
    - intros (x & Hx & He). apply String.eqb_eq in He. subst. exact Hx.
    - intros H. exists e. split; [exact H | apply String.eqb_refl]. }
  split; [|split].
  - intros name H. unfold allowed_file. rewrite H. reflexivity.
  - intros stem ext He. unfold allowed_file.
    rewrite has_dot_app, (after_last_dot_app _ _ He). reflexivity.
  - intros name. unfold allowed_file. split.
    + intros H. apply andb_true_iff in H. destruct H as [_ H].
      destruct (after_last_dot name) as [ext|] eqn:E; [|discriminate H].
      destruct (after_last_dot_split _ _ E) as (stem & -> & Hd).
      exists stem, ext. rewrite <- Hmem. auto.
    + intros (stem & ext & -> & Hd & Hin).
      rewrite has_dot_app, (after_last_dot_app _ _ Hd).
      apply Hmem. exact Hin.
Qed.

Example allowed_file_examples :
  map allowed_file ["photo.PNG"; "archive.tar.gz"; ".gif"; "png"; "a.png.";
                    "a.b.JpEg"]
  = [true; false; true; false; false; true].
Proof. reflexivity. Qed.

(** ** From the quote to the ratings *)



Lemma filter_delete_other {A} (key : A -> Z) (i j : Z) (rows : list A) :
  i <> j ->
  filter (fun x => key x =? j) (delete_where (fun x => key x =? i) rows)
  = filter (fun x => key x =? j) rows.
Proof.
  intros Hij. unfold delete_where. rewrite filter_both.
  apply filter_ext. intros x. destruct (key x =? j) eqn:E.
  - apply Z.eqb_eq in E.
    assert (Hi : (key x =? i) = false) by (apply Z.eqb_neq; congruence).
    rewrite Hi. reflexivity.
  - apply andb_false_r.
Qed.

(** X17.  A successful DeleteTask touches the deleted task only: every other task
    is found as before with the quotes and ratings it had, and users and
    notifications are unchanged (the notifications about the deleted task
    stay). *)
Theorem delete_task_spares_the_rest uid tid f db r db' :
  serve (delete_task uid tid) f db = (r, db') ->
  code r = 200 ->
  (forall i, i <> tid ->
     Task_get i db' = Task_get i db
     /\ quotes_of i db' = quotes_of i db
     /\ ratings_of i db' = ratings_of i db)
  /\ users db' = users db
  /\ notifications db' = notifications db.
Proof.
  intros Hs Hc.
  assert (Hd : db' = task_deleted tid db).
  { pose proof (serve_delete_task_rejected uid tid f db) as Hr.
    destruct (owned_task uid tid db) as [task|] eqn:Ho.
    - destruct (Task.status task) eqn:Es.
      + rewrite (serve_delete_task uid tid f db task Ho Es) in Hs.
        destruct f as [[|[|[|n]]]|]; inversion Hs; subst;
          try reflexivity; discriminate Hc.
      + rewrite Hr in Hs by discriminate. inversion Hs; subst.
        discriminate Hc.
      + rewrite Hr in Hs by discriminate. inversion Hs; subst.
        discriminate Hc.
    - rewrite Hr in Hs. inversion Hs; subst. discriminate Hc. }
  subst db'. split; [|split; reflexivity].
  intros i Hi. unfold Task_get, quotes_of, ratings_of, task_deleted. tables.
  repeat split.
  - apply get_delete_other. congruence.
  - apply filter_delete_other. congruence.
  - apply filter_delete_other. congruence.
Qed.

(** ** The theorems at work on the small stores *)

Lemma users_stay_distinct_witness :
  users_ok (step (Register ada_form) None empty_db).
Proof.
  apply (proj1 users_stay_distinct (Register ada_form) None empty_db
           empty_users_ok).
Defined.

Lemma register_once_witness :
  exists user db',
    serve (register ada_form) None empty_db = (resp (Registered user) 201, db')
    /\ User_get (User.id user) db' = Some user
    /\ User.is_admin user = true.
Proof.
  destruct (register_once ada_form "ada" "wavecommunnity@gmail.com" "secret"
              "seeker" empty_db eq_refl eq_refl eq_refl eq_refl eq_refl
              eq_refl eq_refl)
    as (user & db' & Hs & Hg & _ & _ & Ha & _).
  exists user, db'. auto.
Defined.

Lemma admin_routes_admin_only_witness :
  admin_required admin_users 1 (run signups empty_db) = inr [ada; bob].
Proof.
  apply (proj2 (proj2 (proj2 (admin_routes_admin_only admin_users 1)))
           signups ada eq_refl eq_refl).
Defined.


Lemma tasks_assigned_when_accepted_witness :
  (Task.status tap = TOpen ->
   Task.helper_id tap = None /\ Task.charges tap = None
   /\ Task.hours tap = None)
  /\ (Task.status tap = TAccepted ->
      exists h c x, Task.helper_id tap = Some h /\ Task.charges tap = Some c
                    /\ Task.hours tap = Some x).
Proof.
  apply (proj2 tasks_assigned_when_accepted [(CreateTask 1 tap_form, None)]
           tap).
  left. reflexivity.
Defined.

Lemma postings_never_change_witness :
  (exists t, In t (tasks market) /\ posting tap_assigned = posting t)
  \/ (exists uid,
        caller (AcceptQuote 1 1) = Some uid
        /\ Task.poster_id tap_assigned = uid
        /\ Task.status tap_assigned = TOpen
        /\ Task.id tap_assigned = next_id (map Task.id (tasks market))
        /\ tasks (step (AcceptQuote 1 1) None market)
           = tasks market ++ [tap_assigned]).
Proof.
  apply (postings_never_change (AcceptQuote 1 1) None market tap_assigned).
  left. reflexivity.
Defined.

Lemma market_settled_task_ids_unique : task_ids_unique market_settled.
Proof.
  unfold task_ids_unique. cbn. repeat constructor. intros [].
Defined.

Lemma closed_for_good_witness :
  (exists t', Task_get 1 (run [(CompleteTask 2 1, None)] market_settled)
              = Some t'
              /\ Task.status t' <> TOpen
              /\ posting t' = posting tap_assigned)
  /\ (forall uid c h m f,
        snd (serve (submit_quote uid 1 c h m) f
                   (run [(CompleteTask 2 1, None)] market_settled))
        = run [(CompleteTask 2 1, None)] market_settled
        /\ (code (fst (serve (submit_quote uid 1 c h m) f
                        (run [(CompleteTask 2 1, None)] market_settled)))
            = 400
            \/ code (fst (serve (submit_quote uid 1 c h m) f
                          (run [(CompleteTask 2 1, None)] market_settled)))
               = 404))
  /\ (forall uid f,
        snd (serve (delete_task uid 1) f
                   (run [(CompleteTask 2 1, None)] market_settled))
        = run [(CompleteTask 2 1, None)] market_settled
        /\ (code (fst (serve (delete_task uid 1) f
                        (run [(CompleteTask 2 1, None)] market_settled)))
            = 400
            \/ code (fst (serve (delete_task uid 1) f
                          (run [(CompleteTask 2 1, None)] market_settled)))
               = 404)).
Proof.
  apply (closed_for_good 1 market_settled tap_assigned
           [(CompleteTask 2 1, None)] market_settled_task_ids_unique eq_refl).
  intros H; discriminate H.
Defined.

Lemma market_task_ids_unique : task_ids_unique market.
Proof.
  unfold task_ids_unique. cbn. repeat constructor. intros [].
Defined.

Lemma strangers_leave_tasks_witness :
  Task_get 1 (step (DeleteTask 9 1) None market) = Some tap.
Proof.
  apply (strangers_leave_tasks (DeleteTask 9 1) None market 1 tap
           market_task_ids_unique eq_refl).
  intros uid Hu. inversion Hu; subst. split; intros H; discriminate H.
Defined.



Lemma finished_ratings_ok : ratings_ok finished.
Proof.
  split; [constructor | intros t u v; apply Nat.le_0_l].
Defined.

Lemma ratings_stay_valid_witness :
  ratings_ok (step (CreateRating 1 (Some 1) (Some 2) (Some 5) Absent) None
                   finished).
Proof.
  apply (proj1 ratings_stay_valid _ None finished finished_ratings_ok).
Defined.




Lemma allowed_file_by_last_extension_witness :
  allowed_file "holiday.2024.JPG"
  = existsb (String.eqb (lower "JPG")) ALLOWED_EXTENSIONS.
Proof.
  apply (proj1 (proj2 allowed_file_by_last_extension) "holiday.2024" "JPG").
  reflexivity.
Defined.


Lemma delete_task_spares_the_rest_witness :
  (forall i, i <> 1 ->
     Task_get i (task_deleted 1 market) = Task_get i market
     /\ quotes_of i (task_deleted 1 market) = quotes_of i market
     /\ ratings_of i (task_deleted 1 market) = ratings_of i market)
  /\ users (task_deleted 1 market) = users market
  /\ notifications (task_deleted 1 market) = notifications market.
Proof.
  apply (delete_task_spares_the_rest 1 1 None market
           (resp (Message "Task deleted successfully") 200)
           (task_deleted 1 market) eq_refl eq_refl).
Defined.
